(** * GenerationActor: a shallow embedding of [actors/generation_actor.py]

    The actor turns a [GENERATE_RESPONSE] message into a provider call made
    through a circuit breaker, parses the structured answer, validates it,
    emits observability events and sends the answer back.

    Conventions of the embedding:
    - Python [int] is [Z], [float] is an exact rational [Q], [str] is
      [string], a [dict] whose order is observable is an association list and
      a configuration [dict] that is only looked up is a [gmap].
    - A coroutine is a function [state -> result A * state]: [await] is
      sequencing, an exception is the [Raise] outcome and still carries the
      state reached when it was raised.
    - Everything the actor imports but does not define (the provider client,
      [json.loads], [parse_response], the event sink, the wall clock) is a
      field of [Env]; every imported configuration constant is a field of
      [Config].
    - Logger calls, message identifiers and wall-clock time stamps written
      into events and payloads are not modelled. *)

From Stdlib Require Import ZArith QArith String Ascii List DecimalString Lia.
From stdpp Require Import base option gmap strings list.

Local Set Warnings "-register-all".
Local Open Scope string_scope.
Local Open Scope list_scope.
Local Open Scope Z_scope.

(** ** Python values *)

(** [Any]: what [json.loads] returns and what configuration dicts hold. *)
Inductive value :=
| VNone
| VBool (b : bool)
| VInt (z : Z)
| VFloat (q : Q)
| VStr (s : string)
| VList (l : list value)
| VDict (d : list (string * value)).

(** [d.get(k)] on an insertion-ordered dict. *)
Fixpoint dict_get {A} (d : list (string * A)) (k : string) : option A :=
  match d with
  | [] => None
  | (k', v) :: d' => if decide (k' = k) then Some v else dict_get d' k
  end.

(** [list(d.keys())] *)
Definition dict_keys {A} (d : list (string * A)) : list string := map fst d.

(** [isinstance(v, dict)] *)
Definition is_dict (v : value) : bool :=
  match v with VDict _ => true | _ => false end.

(** [str(n)] for an [int]. *)
Definition str_int (z : Z) : string := NilZero.string_of_int (Z.to_int z).

(** [needle in s] for two [str]. *)
Fixpoint contains (needle s : string) : bool :=
  String.prefix needle s ||
  match s with
  | EmptyString => false
  | String _ s' => contains needle s'
  end.

(** [sep.join(parts)] *)
Fixpoint join (sep : string) (parts : list string) : string :=
  match parts with
  | [] => ""
  | [p] => p
  | p :: ps => p +:+ sep +:+ join sep ps
  end.

(** [l[:m]], where a negative [m] counts from the end. *)
Definition slice_to {A} (l : list A) (m : Z) : list A :=
  if m <? 0 then take (Z.to_nat (Z.of_nat (length l) + m)) l
  else take (Z.to_nat m) l.

(** The two-newline separator of the prompt f-strings. *)
Definition nl2 : string := String "010"%char (String "010"%char "").

(** ** Exceptions *)

(** One entry of pydantic's [ValidationError.errors()]: [loc] mixes field
    names and indices. *)
Inductive loc_item := LocStr (s : string) | LocInt (i : Z).

Record error_detail := { loc : list loc_item; msg : string }.

(** The exception classes the actor raises, catches or lets through.
    [JSONDecodeError] and pydantic's [ValidationError] are subclasses of
    [ValueError]; [ValidationError] carries its own [str] rendering. *)
Inductive exn :=
| JSONDecodeError (m : string)
| ValidationError (errors : list error_detail) (text : string)
| ValueError (m : string) (cause : option exn)
| KeyError (key : string)
| TypeError (m : string)
| ZeroDivisionError (m : string)
| UnboundLocalError (m : string)
| BreakerOpenError (m : string)
| Exception (m : string).

(** [isinstance(e, json.JSONDecodeError)] *)
Definition is_JSONDecodeError (e : exn) : bool :=
  match e with JSONDecodeError _ => true | _ => false end.

(** [isinstance(e, ValueError)] *)
Definition is_ValueError (e : exn) : bool :=
  match e with
  | JSONDecodeError _ | ValidationError _ _ | ValueError _ _ => true
  | _ => false
  end.

(** [str(e)] *)
Definition str_exn (e : exn) : string :=
  match e with
  | JSONDecodeError m | ValueError m _ | TypeError m | ZeroDivisionError m
  | UnboundLocalError m | BreakerOpenError m | Exception m => m
  | ValidationError _ text => text
  | KeyError key => "'" +:+ key +:+ "'"
  end.

(** Outcome of a call: a value or a raised exception. *)
Inductive result (A : Type) :=
| Ok (a : A)
| Raise (e : exn).
Arguments Ok {A} a.
Arguments Raise {A} e.

Definition is_Ok {A} (r : result A) : bool :=
  match r with Ok _ => true | Raise _ => false end.

(** The value of a call that returned. *)
Definition returned {A} (r : result A) : option A :=
  match r with Ok a => Some a | Raise _ => None end.

(** [d[k]] on a configuration dict: [KeyError] when [k] is absent. *)
Definition getitem {A} (d : gmap string A) (k : string) : result A :=
  match d !! k with
  | Some v => Ok v
  | None => Raise (KeyError k)
  end.

(** ** Messages ([actors/messages.py]) *)

Inductive MessageType :=
| PING | PONG | ERROR | SHUTDOWN | DLQ_QUEUED | DLQ_PROCESSED | DLQ_CLEANUP
| USER_MESSAGE | GENERATE_RESPONSE | BOT_RESPONSE | STREAMING_CHUNK
| SESSION_CREATED | SESSION_UPDATED | CACHE_HIT_METRIC | PROMPT_INCLUSION
| JSON_MODE_FAILURE | TELEGRAM_MESSAGE_RECEIVED | PROCESS_USER_MESSAGE
| SEND_TELEGRAM_RESPONSE | JSON_VALIDATION_FAILED
| STRUCTURED_RESPONSE_GENERATED | MODE_DETECTED | MODE_FALLBACK
| GENERATION_PARAMETERS_USED | PYDANTIC_VALIDATION_SUCCESS | PATTERN_DEBUG.

(** [MessageType] is a [str] enum: a member compares equal to its value. *)
Definition MessageType_value (t : MessageType) : string :=
  match t with
  | PING => "ping" | PONG => "pong" | ERROR => "error"
  | SHUTDOWN => "shutdown" | DLQ_QUEUED => "dlq_queued"
  | DLQ_PROCESSED => "dlq_processed" | DLQ_CLEANUP => "dlq_cleanup"
  | USER_MESSAGE => "user_message"
  | GENERATE_RESPONSE => "generate_response"
  | BOT_RESPONSE => "bot_response" | STREAMING_CHUNK => "streaming_chunk"
  | SESSION_CREATED => "session_created"
  | SESSION_UPDATED => "session_updated"
  | CACHE_HIT_METRIC => "cache_hit_metric"
  | PROMPT_INCLUSION => "prompt_inclusion"
  | JSON_MODE_FAILURE => "json_mode_failure"
  | TELEGRAM_MESSAGE_RECEIVED => "telegram_message_received"
  | PROCESS_USER_MESSAGE => "process_user_message"
  | SEND_TELEGRAM_RESPONSE => "send_telegram_response"
  | JSON_VALIDATION_FAILED => "json_validation_failed"
  | STRUCTURED_RESPONSE_GENERATED => "structured_response_generated"
  | MODE_DETECTED => "mode_detected" | MODE_FALLBACK => "mode_fallback"
  | GENERATION_PARAMETERS_USED => "generation_parameters_used"
  | PYDANTIC_VALIDATION_SUCCESS => "pydantic_validation_success"
  | PATTERN_DEBUG => "pattern_debug"
  end.

(** The payload keys this actor reads and writes.  A key that is absent from
    the dict is [None]; a present key holds a value of the type its consumer
    declares ([_generate_response] for the inbound command).  [text] is
    [Any]: outbound it carries whatever the structured answer held. *)
Record Payload := {
  user_id : option string;
  chat_id : option value;
  text : option value;
  include_prompt : option bool;
  mode : option string;
  error : option string;
  error_type : option string
}.

(** [ActorMessage] *)
Record ActorMessage := {
  sender_id : option string;
  message_type : string;
  payload : Payload
}.

(** [ActorMessage.create] *)
Definition ActorMessage_create (sender : option string) (mtype : string)
    (p : Payload) : ActorMessage :=
  {| sender_id := sender; message_type := mtype; payload := p |}.

(** [payload[k]]: [KeyError] when the key is absent. *)
Definition payload_getitem {A} (k : string) (field : option A) : result A :=
  match field with
  | Some v => Ok v
  | None => Raise (KeyError k)
  end.

(** ** The circuit breaker ([utils/circuit_breaker.py]) *)

Module CircuitBreaker.

Inductive phase := Closed | Open | HalfOpen.

(** Modelled from the spec: [utils/circuit_breaker.py] is not part of the
    sources; the state below is the spec's CircuitBreakerState (state,
    consecutive-failure counter, failure threshold, recovery timeout, time
    stamp of the last failure). *)
Record t := {
  state : phase;
  failure_count : Z;
  failure_threshold : Z;
  recovery_timeout : Z;
  last_failure_time : Z
}.

(** [CircuitBreaker(name, failure_threshold, recovery_timeout,
    expected_exception=Exception)]: starts Closed with no failure. *)
Definition new (threshold timeout : Z) : t :=
  {| state := Closed; failure_count := 0; failure_threshold := threshold;
     recovery_timeout := timeout; last_failure_time := 0 |}.

Definition set_state (p : phase) (cb : t) : t :=
  {| state := p; failure_count := failure_count cb;
     failure_threshold := failure_threshold cb;
     recovery_timeout := recovery_timeout cb;
     last_failure_time := last_failure_time cb |}.

(** Modelled from the spec: the admission decision of [call], missing from
    the sources.  While Open, a call before
    [lastFailure + recoveryTimeout] is refused ([None]); the first call at
    or after that deadline moves the breaker to HalfOpen and is let
    through. *)
Definition allow (cb : t) (now : Z) : option t :=
  match state cb with
  | Open =>
      if last_failure_time cb + recovery_timeout cb <=? now
      then Some (set_state HalfOpen cb)
      else None
  | Closed | HalfOpen => Some cb
  end.

(** Modelled from the spec: the bookkeeping of [call] after a successful
    operation, missing from the sources.  The breaker is Closed and the
    counter of consecutive failures is zero. *)
Definition on_success (cb : t) : t :=
  {| state := Closed; failure_count := 0;
     failure_threshold := failure_threshold cb;
     recovery_timeout := recovery_timeout cb;
     last_failure_time := last_failure_time cb |}.

(** Modelled from the spec: the bookkeeping of [call] after a failed
    operation, missing from the sources.  A failed HalfOpen trial reopens
    the breaker with a fresh time stamp and the counter unchanged; a
    failure while Closed counts, and opens the breaker once the counter
    reaches the threshold. *)
Definition on_failure (cb : t) (now : Z) : t :=
  match state cb with
  | HalfOpen =>
      {| state := Open; failure_count := failure_count cb;
         failure_threshold := failure_threshold cb;
         recovery_timeout := recovery_timeout cb;
         last_failure_time := now |}
  | Closed | Open =>
      let n := failure_count cb + 1 in
      {| state := if failure_threshold cb <=? n then Open else Closed;
         failure_count := n;
         failure_threshold := failure_threshold cb;
         recovery_timeout := recovery_timeout cb;
         last_failure_time := now |}
  end.

(** Modelled from the spec: [CircuitBreaker.call(operation)], missing from
    the sources.  [operation] runs on the caller's state [W]; a refused
    call raises [BreakerOpenError] and leaves [W] as it was; every
    exception of [operation] counts as a failure and is raised again. *)
Definition call {W A} (cb : t) (now : Z) (operation : W -> result A * W)
    (w : W) : result A * t * W :=
  match allow cb now with
  | None => (Raise (BreakerOpenError "Circuit breaker is OPEN"), cb, w)
  | Some cb1 =>
      match operation w with
      | (Ok a, w') => (Ok a, on_success cb1, w')
      | (Raise e, w') => (Raise e, on_failure cb1 now, w')
      end
  end.

End CircuitBreaker.

(** ** Configuration and environment *)

(** [PROMPT_CONFIG]: the two keys the actor indexes. *)
Record prompt_config := {
  use_json_mode : bool;
  json_fallback_enabled : bool
}.

(** The constants imported from [config.prompts] and [config.settings]. *)
Record Config := {
  PROMPTS : gmap string (gmap string string);
  PROMPT_CONFIG : prompt_config;
  JSON_SCHEMA_INSTRUCTIONS : gmap string string;
  MODE_GENERATION_PARAMS : gmap string (gmap string value);
  GENERATION_PARAMS_LOG_CONFIG : gmap string bool;
  JSON_VALIDATION_CONFIG : gmap string Z;
  JSON_VALIDATION_ENABLED : bool;
  JSON_VALIDATION_LOG_FAILURES : bool;
  CACHE_HIT_LOG_INTERVAL : Z;
  DEEPSEEK_MODEL : string
}.

(** One message of the chat-completions request. *)
Record chat_message := { role : string; content : value }.

(** The keyword arguments of [chat.completions.create]; [response_format]
    is the [type] of the requested format, when one is requested. *)
Record api_request := {
  model : string;
  messages : list chat_message;
  temperature : value;
  top_p : value;
  max_tokens : value;
  frequency_penalty : value;
  presence_penalty : value;
  stream : bool;
  response_format : option string
}.

(** [chunk.usage], each attribute possibly absent. *)
Record usage := {
  prompt_cache_hit_tokens : option Z;
  prompt_cache_miss_tokens : option Z
}.

(** One streamed chunk: [choices[0].delta.content] and [usage]. *)
Record chunk := {
  delta_content : option string;
  chunk_usage : option usage
}.

(** [BaseEvent.create(stream_id, event_type, data)] *)
Record BaseEvent := {
  stream_id : string;
  event_type : string;
  data : list (string * value)
}.

(** What the actor calls but does not define.  Calls are numbered from 0 in
    the order the actor makes them.
    - [json_loads]: [json.loads].
    - [parse_response]: [models.structured_responses.parse_response];
      [None] when it returns a model.
    - [create_completion n req]: the [n]-th provider call, drained to its
      end; [Raise] when the call or the stream fails.
    - [append_event n ev]: the [n]-th call of
      [EventVersionManager.append_event]; [Some e] when it raises [e].
    - [monotonic n]: the time the breaker reads at its [n]-th call.
    - [str_value]: the built-in [str] on a parsed value that is not a dict. *)
Record Env := {
  json_loads : string -> result value;
  str_value : value -> string;
  parse_response : value -> string -> option exn;
  create_completion : nat -> api_request -> result (list chunk);
  append_event : nat -> BaseEvent -> option exn;
  monotonic : nat -> Z
}.

(** ** Actor state *)

(** The attributes of [GenerationActor] set in [__init__] and [initialize],
    followed by a trace of what the actor did to its surroundings:
    [requests] are the provider calls issued, [emitted] every event handed
    to the sink, [event_log] the events the sink accepted, [outbox] the
    messages given to [send_message], [breaker_calls] the number of
    [CircuitBreaker.call]s so far. *)
Record State := {
  _generation_count : Z;
  _total_cache_hits : Q;
  _json_failures : Z;
  _mode_success_counts : gmap string Z;
  _mode_failure_counts : gmap string Z;
  _circuit_breaker : CircuitBreaker.t;
  actor_system : bool;
  requests : list api_request;
  emitted : list BaseEvent;
  event_log : list BaseEvent;
  outbox : list (string * ActorMessage);
  breaker_calls : nat
}.

(** [__init__] followed by [initialize]. *)
Definition initialize (registered : bool) : State :=
  {| _generation_count := 0;
     _total_cache_hits := 0%Q;
     _json_failures := 0;
     _mode_success_counts :=
       <["base" := 0]> (<["talk" := 0]> (<["expert" := 0]>
         (<["creative" := 0]> ∅)));
     _mode_failure_counts :=
       <["base" := 0]> (<["talk" := 0]> (<["expert" := 0]>
         (<["creative" := 0]> ∅)));
     _circuit_breaker := CircuitBreaker.new 3 60;
     actor_system := registered;
     requests := []; emitted := []; event_log := []; outbox := [];
     breaker_calls := 0 |}.


(** Attribute assignment, one function per attribute that is assigned. *)
Definition set_generation_count (x : Z) (s : State) : State :=
  {| _generation_count := x;
     _total_cache_hits := _total_cache_hits s;
     _json_failures := _json_failures s;
     _mode_success_counts := _mode_success_counts s;
     _mode_failure_counts := _mode_failure_counts s;
     _circuit_breaker := _circuit_breaker s;
     actor_system := actor_system s;
     requests := requests s;
     emitted := emitted s;
     event_log := event_log s;
     outbox := outbox s;
     breaker_calls := breaker_calls s |}.

Definition set_total_cache_hits (x : Q) (s : State) : State :=
  {| _generation_count := _generation_count s;
     _total_cache_hits := x;
     _json_failures := _json_failures s;
     _mode_success_counts := _mode_success_counts s;
     _mode_failure_counts := _mode_failure_counts s;
     _circuit_breaker := _circuit_breaker s;
     actor_system := actor_system s;
     requests := requests s;
     emitted := emitted s;
     event_log := event_log s;
     outbox := outbox s;
     breaker_calls := breaker_calls s |}.

Definition set_json_failures (x : Z) (s : State) : State :=
  {| _generation_count := _generation_count s;
     _total_cache_hits := _total_cache_hits s;
     _json_failures := x;
     _mode_success_counts := _mode_success_counts s;
     _mode_failure_counts := _mode_failure_counts s;
     _circuit_breaker := _circuit_breaker s;
     actor_system := actor_system s;
     requests := requests s;
     emitted := emitted s;
     event_log := event_log s;
     outbox := outbox s;
     breaker_calls := breaker_calls s |}.

Definition set_mode_success_counts (x : gmap string Z) (s : State) : State :=
  {| _generation_count := _generation_count s;
     _total_cache_hits := _total_cache_hits s;
     _json_failures := _json_failures s;
     _mode_success_counts := x;
     _mode_failure_counts := _mode_failure_counts s;
     _circuit_breaker := _circuit_breaker s;
     actor_system := actor_system s;
     requests := requests s;
     emitted := emitted s;
     event_log := event_log s;
     outbox := outbox s;
     breaker_calls := breaker_calls s |}.

Definition set_mode_failure_counts (x : gmap string Z) (s : State) : State :=
  {| _generation_count := _generation_count s;
     _total_cache_hits := _total_cache_hits s;
     _json_failures := _json_failures s;
     _mode_success_counts := _mode_success_counts s;
     _mode_failure_counts := x;
     _circuit_breaker := _circuit_breaker s;
     actor_system := actor_system s;
     requests := requests s;
     emitted := emitted s;
     event_log := event_log s;
     outbox := outbox s;
     breaker_calls := breaker_calls s |}.

Definition set_circuit_breaker (x : CircuitBreaker.t) (s : State) : State :=
  {| _generation_count := _generation_count s;
     _total_cache_hits := _total_cache_hits s;
     _json_failures := _json_failures s;
     _mode_success_counts := _mode_success_counts s;
     _mode_failure_counts := _mode_failure_counts s;
     _circuit_breaker := x;
     actor_system := actor_system s;
     requests := requests s;
     emitted := emitted s;
     event_log := event_log s;
     outbox := outbox s;
     breaker_calls := breaker_calls s |}.

Definition set_requests (x : list api_request) (s : State) : State :=
  {| _generation_count := _generation_count s;
     _total_cache_hits := _total_cache_hits s;
     _json_failures := _json_failures s;
     _mode_success_counts := _mode_success_counts s;
     _mode_failure_counts := _mode_failure_counts s;
     _circuit_breaker := _circuit_breaker s;
     actor_system := actor_system s;
     requests := x;
     emitted := emitted s;
     event_log := event_log s;
     outbox := outbox s;
     breaker_calls := breaker_calls s |}.

Definition set_emitted (x : list BaseEvent) (s : State) : State :=
  {| _generation_count := _generation_count s;
     _total_cache_hits := _total_cache_hits s;
     _json_failures := _json_failures s;
     _mode_success_counts := _mode_success_counts s;
     _mode_failure_counts := _mode_failure_counts s;
     _circuit_breaker := _circuit_breaker s;
     actor_system := actor_system s;
     requests := requests s;
     emitted := x;
     event_log := event_log s;
     outbox := outbox s;
     breaker_calls := breaker_calls s |}.

Definition set_event_log (x : list BaseEvent) (s : State) : State :=
  {| _generation_count := _generation_count s;
     _total_cache_hits := _total_cache_hits s;
     _json_failures := _json_failures s;
     _mode_success_counts := _mode_success_counts s;
     _mode_failure_counts := _mode_failure_counts s;
     _circuit_breaker := _circuit_breaker s;
     actor_system := actor_system s;
     requests := requests s;
     emitted := emitted s;
     event_log := x;
     outbox := outbox s;
     breaker_calls := breaker_calls s |}.

Definition set_outbox (x : list (string * ActorMessage)) (s : State) : State :=
  {| _generation_count := _generation_count s;
     _total_cache_hits := _total_cache_hits s;
     _json_failures := _json_failures s;
     _mode_success_counts := _mode_success_counts s;
     _mode_failure_counts := _mode_failure_counts s;
     _circuit_breaker := _circuit_breaker s;
     actor_system := actor_system s;
     requests := requests s;
     emitted := emitted s;
     event_log := event_log s;
     outbox := x;
     breaker_calls := breaker_calls s |}.

Definition set_breaker_calls (x : nat) (s : State) : State :=
  {| _generation_count := _generation_count s;
     _total_cache_hits := _total_cache_hits s;
     _json_failures := _json_failures s;
     _mode_success_counts := _mode_success_counts s;
     _mode_failure_counts := _mode_failure_counts s;
     _circuit_breaker := _circuit_breaker s;
     actor_system := actor_system s;
     requests := requests s;
     emitted := emitted s;
     event_log := event_log s;
     outbox := outbox s;
     breaker_calls := x |}.

(** ** Coroutines as state transformers *)

Definition M (A : Type) : Type := State -> result A * State.

Definition ret {A} (a : A) : M A := fun s => (Ok a, s).

Definition raise {A} (e : exn) : M A := fun s => (Raise e, s).

Definition bind {A B} (c : M A) (k : A -> M B) : M B :=
  fun s =>
    match c s with
    | (Ok a, s') => k a s'
    | (Raise e, s') => (Raise e, s')
    end.

(** [try: body / except ... as e: handler e]; the handler decides which
    classes it catches and raises the others again. *)
Definition try_except {A} (body : M A) (handler : exn -> M A) : M A :=
  fun s =>
    match body s with
    | (Ok a, s') => (Ok a, s')
    | (Raise e, s') => handler e s'
    end.

(** A pure call that may raise. *)
Definition lift {A} (r : result A) : M A := fun s => (r, s).

(** An attribute update. *)
Definition modify (f : State -> State) : M unit := fun s => (Ok tt, f s).

Notation "'let!' x ':=' c 'in' k" := (bind c (fun x => k))
  (at level 10, x binder, c at level 100, k at level 200).
Notation "c ';;;' k" := (bind c (fun _ => k))
  (at level 100, k at level 200, right associativity).

(** ** The actor ([actors/generation_actor.py]) *)

Section GenerationActor.

Variable cfg : Config.
Variable env : Env.

(** [_append_event]: hands the event to the sink; nothing is caught. *)
Definition _append_event (event : BaseEvent) : M unit :=
  fun s =>
    let n := length (emitted s) in
    let s1 := set_emitted (emitted s ++ [event]) s in
    match append_event env n event with
    | Some e => (Raise e, s1)
    | None => (Ok tt, set_event_log (event_log s1 ++ [event]) s1)
    end.

(** The [CacheHitMetricEvent] built by [_log_cache_metrics]. *)
Definition cache_hit_metric_event (hit_tokens miss_tokens : Z)
    (cache_hit_rate : Q) : BaseEvent :=
  {| stream_id := "metrics";
     event_type := "CacheHitMetricEvent";
     data := [("prompt_cache_hit_tokens", VInt hit_tokens);
              ("prompt_cache_miss_tokens", VInt miss_tokens);
              ("cache_hit_rate", VFloat cache_hit_rate)] |}.

(** The periodic log line of [_log_cache_metrics]: only the two divisions
    that evaluating it performs are kept. *)
Definition log_periodically : M unit :=
  fun s =>
    if CACHE_HIT_LOG_INTERVAL cfg =? 0
    then (Raise (ZeroDivisionError "integer modulo by zero"), s)
    else if _generation_count s mod CACHE_HIT_LOG_INTERVAL cfg =? 0
    then if _generation_count s =? 0
         then (Raise (ZeroDivisionError "float division by zero"), s)
         else (Ok tt, s)
    else (Ok tt, s).

(** [_log_cache_metrics] *)
Definition _log_cache_metrics (hit_tokens miss_tokens : Z) : M unit :=
  modify (fun s => set_generation_count (_generation_count s + 1) s) ;;;
  let total_tokens := hit_tokens + miss_tokens in
  if 0 <? total_tokens then
    let cache_hit_rate := (inject_Z hit_tokens / inject_Z total_tokens)%Q in
    modify (fun s =>
      set_total_cache_hits (_total_cache_hits s + cache_hit_rate)%Q s) ;;;
    log_periodically ;;;
    _append_event
      (cache_hit_metric_event hit_tokens miss_tokens cache_hit_rate)
  else ret tt.

(** [_log_json_failure] *)
Definition _log_json_failure (user_id error : string) : M unit :=
  _append_event
    {| stream_id := "user_" +:+ user_id;
       event_type := "JSONModeFailureEvent";
       data := [("user_id", VStr user_id); ("error", VStr error)] |}.

(** [_log_validation_failure] *)
Definition _log_validation_failure (user_id : string)
    (errors : list string) (response_data : list (string * value))
    : M unit :=
  _append_event
    {| stream_id := "validation_" +:+ user_id;
       event_type := "JSONValidationFailedEvent";
       data := [("user_id", VStr user_id);
                ("errors", VList (map VStr errors));
                ("response_fields",
                 VList (map VStr (dict_keys response_data)))] |}.

(** [_build_mode_prompt] *)
Definition _build_mode_prompt (base_prompt mode : string)
    (use_json : bool) : string :=
  if decide (mode = "base") then base_prompt
  else
    match PROMPTS cfg !! mode with
    | None => base_prompt
    | Some mode_prompts =>
        let prompt_key := if use_json then "json" else "normal" in
        let mode_modifier := default "" (mode_prompts !! prompt_key) in
        if bool_decide (mode_modifier = "") || contains "TODO" mode_modifier
        then base_prompt
        else
          let final_prompt := base_prompt +:+ nl2 +:+ mode_modifier in
          if use_json then
            match JSON_SCHEMA_INSTRUCTIONS cfg !! mode with
            | Some instructions => final_prompt +:+ nl2 +:+ instructions
            | None => final_prompt
            end
          else final_prompt
    end.

(** [_format_context]; [PROMPTS["base"][prompt_key]] raises [KeyError]
    when the base prompt is not configured. *)
Definition _format_context (text : value) (include_prompt : bool)
    (force_normal : bool) (mode : string) : result (list chat_message) :=
  let user_message := {| role := "user"; content := text |} in
  if include_prompt then
    let use_json := use_json_mode (PROMPT_CONFIG cfg) && negb force_normal in
    let prompt_key := if use_json then "json" else "normal" in
    match getitem (PROMPTS cfg) "base" with
    | Raise e => Raise e
    | Ok base_prompts =>
        match getitem base_prompts prompt_key with
        | Raise e => Raise e
        | Ok base_prompt =>
            let system_prompt :=
              _build_mode_prompt base_prompt mode use_json in
            Ok [{| role := "system"; content := VStr system_prompt |};
                user_message]
        end
    end
  else Ok [user_message].

(** One iteration of the [async for] of [api_call]: the text grows by a
    non-empty [delta.content]; a chunk that carries [usage] overwrites both
    token counts, an absent attribute reading as 0. *)
Definition consume_chunk (acc : string * Z * Z) (c : chunk)
    : string * Z * Z :=
  let '(full_response, hit, miss) := acc in
  let full_response :=
    match delta_content c with
    | Some piece =>
        if bool_decide (piece = "") then full_response
        else full_response +:+ piece
    | None => full_response
    end in
  match chunk_usage c with
  | Some u =>
      (full_response,
       default 0 (prompt_cache_hit_tokens u),
       default 0 (prompt_cache_miss_tokens u))
  | None => (full_response, hit, miss)
  end.

(** The keyword arguments built by [api_call]. *)
Definition api_kwargs (mode_params : gmap string value)
    (msgs : list chat_message) (use_json : bool) : api_request :=
  {| model := DEEPSEEK_MODEL cfg;
     messages := msgs;
     temperature := default (VFloat (82 # 100)) (mode_params !! "temperature");
     top_p := default (VFloat (85 # 100)) (mode_params !! "top_p");
     max_tokens := default (VInt 1800) (mode_params !! "max_tokens");
     frequency_penalty :=
       default (VFloat (4 # 10)) (mode_params !! "frequency_penalty");
     presence_penalty :=
       default (VFloat (65 # 100)) (mode_params !! "presence_penalty");
     stream := true;
     response_format := if use_json then Some "json_object" else None |}.

(** [MODE_GENERATION_PARAMS.get(mode, MODE_GENERATION_PARAMS["base"])]:
    the default is evaluated first, so a missing base entry raises. *)
Definition mode_generation_params (mode : string)
    : result (gmap string value) :=
  match getitem (MODE_GENERATION_PARAMS cfg) "base" with
  | Raise e => Raise e
  | Ok base_params =>
      Ok (default base_params (MODE_GENERATION_PARAMS cfg !! mode))
  end.

(** The inner coroutine [api_call] of [_call_api]. *)
Definition api_call (msgs : list chat_message) (use_json : bool)
    (mode : string) : M string :=
  let! mode_params := lift (mode_generation_params mode) in
  let kwargs := api_kwargs mode_params msgs use_json in
  let! chunks := (fun s =>
    (create_completion env (length (requests s)) kwargs,
     set_requests (requests s ++ [kwargs]) s)) in
  let '(full_response, hit, miss) :=
    fold_left consume_chunk chunks ("", 0, 0) in
  _log_cache_metrics hit miss ;;;
  ret full_response.

(** [_call_api]: [api_call] run through the shared circuit breaker. *)
Definition _call_api (msgs : list chat_message) (use_json : bool)
    (mode : string) : M string :=
  fun s =>
    let now := monotonic env (breaker_calls s) in
    let s0 := set_breaker_calls (S (breaker_calls s)) s in
    let '(r, cb, s') :=
      CircuitBreaker.call (_circuit_breaker s0) now
        (api_call msgs use_json mode) s0 in
    (r, set_circuit_breaker cb s').

(** [try: ... except Exception: pass] around a call whose result is
    dropped. *)
Definition swallow (outcome : option exn) : unit := tt.

(** [_extract_from_json]; it reads and writes no attribute.  Its
    [except (json.JSONDecodeError, ValueError)] clause logs and raises the
    same exception again. *)
Definition _extract_from_json (response user_id : string)
    (return_full_dict : bool) : result value :=
  match json_loads env response with
  | Raise e => Raise e
  | Ok data =>
      let 'tt :=
        if return_full_dict then swallow (parse_response env data "base")
        else tt in
      match data with
      | VDict d =>
          match dict_get d "response" with
          | Some r => Ok (if return_full_dict then data else r)
          | None =>
              Raise (ValueError "JSON doesn't contain 'response' field" None)
          end
      | _ => Raise (ValueError "JSON doesn't contain 'response' field" None)
      end
  end.

(** [str(x)] for an element of [error['loc']]. *)
Definition str_loc (x : loc_item) : string :=
  match x with
  | LocStr s => s
  | LocInt i => str_int i
  end.

(** The loop over [e.errors()] of [_validate_structured_response]. *)
Definition format_errors (errs : list error_detail) : list string :=
  map (fun error => join "." (map str_loc (loc error)) +:+ ": " +:+ msg error)
      errs.

(** The cap applied at the end of both [except] clauses of
    [_validate_structured_response]. *)
Definition limit_errors (errors : list string) : list string :=
  let max_errors :=
    default 5 (JSON_VALIDATION_CONFIG cfg !! "max_validation_errors") in
  if max_errors <? Z.of_nat (length errors) then
    slice_to errors max_errors ++
    ["... and " +:+ str_int (Z.of_nat (length errors) - max_errors)
     +:+ " more errors"]
  else errors.

(** [_validate_structured_response]; it reads and writes no attribute.
    An exception of [parse_response] that is no [ValueError] is not
    caught. *)
Definition _validate_structured_response (response_dict : value)
    (mode : string) : result (bool * list string) :=
  if negb (JSON_VALIDATION_ENABLED cfg) then Ok (true, [])
  else
    match parse_response env response_dict mode with
    | None => Ok (true, [])
    | Some (ValidationError errs _) =>
        Ok (false, limit_errors (format_errors errs))
    | Some (ValueError _ (Some (ValidationError errs _))) =>
        Ok (false, limit_errors (format_errors errs))
    | Some (ValueError _ _ as e) | Some (JSONDecodeError _ as e) =>
        Ok (false, limit_errors [str_exn e])
    | Some e => Raise e
    end.

(** [self._mode_success_counts[mode] += 1] and its failure twin: the read
    raises [KeyError] for a key the dict does not hold. *)
Definition increment (get : State -> gmap string Z)
    (set : gmap string Z -> State -> State) (mode : string) : M unit :=
  fun s =>
    match get s !! mode with
    | Some n => (Ok tt, set (<[mode := n + 1]> (get s)) s)
    | None => (Raise (KeyError mode), s)
    end.

(** [len(x)] *)
Definition len (x : value) : result Z :=
  match x with
  | VStr s => Ok (Z.of_nat (String.length s))
  | VList l => Ok (Z.of_nat (length l))
  | VDict d => Ok (Z.of_nat (length d))
  | _ => Raise (TypeError "object has no len()")
  end.

(** The [GenerationParametersUsedEvent] of [_generate_response]. *)
Definition parameters_used_event (user_id mode : string)
    (used_params : gmap string value) (response_length : value)
    : BaseEvent :=
  {| stream_id := "generation_" +:+ user_id;
     event_type := "GenerationParametersUsedEvent";
     data := [("user_id", VStr user_id);
              ("mode", VStr mode);
              ("temperature", default VNone (used_params !! "temperature"));
              ("top_p", default VNone (used_params !! "top_p"));
              ("max_tokens", default VNone (used_params !! "max_tokens"));
              ("frequency_penalty",
               default VNone (used_params !! "frequency_penalty"));
              ("presence_penalty",
               default VNone (used_params !! "presence_penalty"));
              ("response_length", response_length)] |}.

(** [GENERATION_PARAMS_LOG_CONFIG.get(key, True)] *)
Definition log_config (key : string) : bool :=
  default true (GENERATION_PARAMS_LOG_CONFIG cfg !! key).

(** The [GenerationParametersUsedEvent] block shared by both branches of
    [_generate_response]. *)
Definition log_parameters_used (user_id mode : string)
    (response_length : result value) : M unit :=
  if log_config "log_parameters_usage" then
    let! used_params := lift (mode_generation_params mode) in
    let! n := lift response_length in
    _append_event (parameters_used_event user_id mode used_params n)
  else ret tt.

(** The validation block of [_generate_response], entered when
    [JSON_VALIDATION_LOG_FAILURES and isinstance(full_data, dict)]. *)
Definition validate_and_count (user_id mode : string) (full_data : value)
    : M unit :=
  match full_data with
  | VDict d =>
      if JSON_VALIDATION_LOG_FAILURES cfg then
        let! outcome := lift (_validate_structured_response full_data mode) in
        let '(is_valid, errors) := outcome in
        (if negb is_valid then _log_validation_failure user_id errors d
         else ret tt) ;;;
        if is_valid
        then increment _mode_success_counts set_mode_success_counts mode
        else increment _mode_failure_counts set_mode_failure_counts mode
      else ret tt
  | _ => ret tt
  end.

(** [full_data['response'] if isinstance(full_data, dict) else
    str(full_data)] *)
Definition response_text_of (full_data : value) : result value :=
  match full_data with
  | VDict d =>
      match dict_get d "response" with
      | Some r => Ok r
      | None => Raise (KeyError "response")
      end
  | _ => Ok (VStr (str_value env full_data))
  end.

(** The [try] body of [_generate_response] after [_call_api] has bound
    [response]. *)
Definition first_attempt (user_id mode : string) (use_json : bool)
    (response : string) : M value :=
  if use_json then
    let! full_data := lift (_extract_from_json response user_id true) in
    validate_and_count user_id mode full_data ;;;
    let! response_text := lift (response_text_of full_data) in
    log_parameters_used user_id mode
      (if log_config "log_response_length"
       then match len response_text with
            | Ok n => Ok (VInt n)
            | Raise e => Raise e
            end
       else Ok VNone) ;;;
    ret response_text
  else
    log_parameters_used user_id mode
      (Ok (VInt (Z.of_nat (String.length response)))) ;;;
    ret (VStr response).

(** The [except json.JSONDecodeError as e] clause of
    [_generate_response]; any other exception is raised again.
    [response] is [None] while the local variable is unbound. *)
Definition on_json_decode_error (text : value) (user_id : string)
    (include_prompt : bool) (mode : string) (use_json : bool)
    (response : option string) (e : exn) : M value :=
  if is_JSONDecodeError e then
    modify (fun s => set_json_failures (_json_failures s + 1) s) ;;;
    _log_json_failure user_id (str_exn e) ;;;
    if json_fallback_enabled (PROMPT_CONFIG cfg) && use_json then
      let! msgs := lift (_format_context text include_prompt true mode) in
      let! response := _call_api msgs false mode in
      ret (VStr response)
    else
      match response with
      | Some r => ret (VStr r)
      | None => raise (UnboundLocalError "response")
      end
  else raise e.

(** [_generate_response] *)
Definition _generate_response (text : value) (user_id : string)
    (include_prompt : bool) (mode : string) : M value :=
  let! msgs := lift (_format_context text include_prompt false mode) in
  let use_json := use_json_mode (PROMPT_CONFIG cfg) in
  let handler :=
    on_json_decode_error text user_id include_prompt mode use_json in
  fun s =>
    match _call_api msgs use_json mode s with
    | (Raise e, s1) => handler None e s1
    | (Ok response, s1) =>
        try_except (first_attempt user_id mode use_json response)
                   (handler (Some response)) s1
    end.

(** [get_actor_system().send_message(recipient, message)], skipped when
    the actor is not registered with a system. *)
Definition send_message (recipient : string) (message : ActorMessage)
    : M unit :=
  fun s =>
    if actor_system s
    then (Ok tt, set_outbox (outbox s ++ [(recipient, message)]) s)
    else (Ok tt, s).

(** [response_text[:50]], evaluated for the log line of [handle_message]:
    only [str] and [list] values can be sliced. *)
Definition slice_50 (x : value) : result unit :=
  match x with
  | VStr _ | VList _ => Ok tt
  | VDict _ => Raise (TypeError "unhashable type: 'slice'")
  | _ => Raise (TypeError "object is not subscriptable")
  end.

Definition empty_payload : Payload :=
  {| user_id := None; chat_id := None; text := None;
     include_prompt := None; mode := None;
     error := None; error_type := None |}.

(** The [BOT_RESPONSE] message of [handle_message]. *)
Definition bot_response (uid : string) (cid response_text : value)
    : ActorMessage :=
  ActorMessage_create (Some "generation") (MessageType_value BOT_RESPONSE)
    {| user_id := Some uid; chat_id := Some cid; text := Some response_text;
       include_prompt := None; mode := None;
       error := None; error_type := None |}.

(** The [ERROR] message of [handle_message]. *)
Definition error_msg (uid : string) (cid : value) (e : exn)
    : ActorMessage :=
  ActorMessage_create (Some "generation") (MessageType_value ERROR)
    {| user_id := Some uid; chat_id := Some cid; text := None;
       include_prompt := None; mode := None;
       error := Some (str_exn e); error_type := Some "generation_error" |}.

(** [handle_message]; the [measure_latency] decorator only times the
    call. *)
Definition handle_message (message : ActorMessage)
    : M (option ActorMessage) :=
  if bool_decide (message_type message ≠ MessageType_value GENERATE_RESPONSE)
  then ret None
  else
    let p := payload message in
    let! uid := lift (payload_getitem "user_id" (user_id p)) in
    let! cid := lift (payload_getitem "chat_id" (chat_id p)) in
    let! txt := lift (payload_getitem "text" (text p)) in
    let incl := default true (include_prompt p) in
    let md := default "base" (mode p) in
    try_except
      (let! response_text := _generate_response txt uid incl md in
       lift (slice_50 response_text) ;;;
       send_message "telegram" (bot_response uid cid response_text) ;;;
       ret None)
      (fun e =>
         send_message "telegram" (error_msg uid cid e) ;;;
         ret None).

End GenerationActor.

(** ** A concrete deployment, used to run the definitions *)

Module Demo.

Definition dq : string := String (ascii_of_nat 34) "".

(** [{"response": "hi there"}] *)
Definition text_hi : string :=
  "{" +:+ dq +:+ "response" +:+ dq +:+ ": " +:+ dq +:+ "hi there" +:+ dq
  +:+ "}".

(** [{"answer": "hi there"}] *)
Definition text_no_response : string :=
  "{" +:+ dq +:+ "answer" +:+ dq +:+ ": " +:+ dq +:+ "hi there" +:+ dq
  +:+ "}".

Definition base_params : gmap string value :=
  <["temperature" := VFloat (82 # 100)]> (<["top_p" := VFloat (85 # 100)]>
    (<["max_tokens" := VInt 1800]> ∅)).

Definition cfg : Config :=
  {| PROMPTS :=
       <["base" := <["json" := "You are Chimera. Answer in JSON."]>
                     (<["normal" := "You are Chimera."]> ∅)]>
       (<["talk" := <["json" := "TODO: talk modifier"]>
                      (<["normal" := "Keep it casual."]> ∅)]>
       (<["expert" := <["json" := "Be precise."]>
                        (<["normal" := "Be precise."]> ∅)]> ∅));
     PROMPT_CONFIG :=
       {| use_json_mode := true; json_fallback_enabled := true |};
     JSON_SCHEMA_INSTRUCTIONS :=
       <["expert" := "Fields: response, sources."]> ∅;
     MODE_GENERATION_PARAMS := <["base" := base_params]> ∅;
     GENERATION_PARAMS_LOG_CONFIG := ∅;
     JSON_VALIDATION_CONFIG := <["max_validation_errors" := 2]> ∅;
     JSON_VALIDATION_ENABLED := true;
     JSON_VALIDATION_LOG_FAILURES := true;
     CACHE_HIT_LOG_INTERVAL := 10;
     DEEPSEEK_MODEL := "deepseek-chat" |}.

(** Agrees with [json.loads] on the texts used below and rejects every
    other text. *)
Definition loads (s : string) : result value :=
  if bool_decide (s = text_hi)
  then Ok (VDict [("response", VStr "hi there")])
  else if bool_decide (s = text_no_response)
  then Ok (VDict [("answer", VStr "hi there")])
  else if bool_decide (s = "[]") then Ok (VList [])
  else Raise (JSONDecodeError "Expecting value: line 1 column 1 (char 0)").

Definition one_chunk (piece : string) : list chunk :=
  [{| delta_content := Some piece;
      chunk_usage := Some {| prompt_cache_hit_tokens := Some 30;
                             prompt_cache_miss_tokens := Some 10 |} |}].

(** An environment whose provider answers the first call with [first] and
    every later call with [later], and whose sink accepts every event
    except the one numbered [failing], when given. *)
Definition env (first later : string) (failing : option nat) : Env :=
  {| json_loads := loads;
     str_value := fun _ => "";
     parse_response := fun _ _ => None;
     create_completion := fun n _ =>
       Ok (one_chunk (if Nat.eqb n 0 then first else later));
     append_event := fun n _ =>
       if bool_decide (failing = Some n)
       then Some (Exception "event store unavailable") else None;
     monotonic := fun n => Z.of_nat n |}.

End Demo.

(** ** Prompt composition *)

Section PromptComposer.

Variable cfg : Config.

Definition prompt_key (use_json : bool) : string :=
  if use_json then "json" else "normal".

Lemma build_mode_prompt_unknown base_prompt mode use_json :
  PROMPTS cfg !! mode = None ->
  _build_mode_prompt cfg base_prompt mode use_json = base_prompt.
Proof.
  intros Hnone. unfold _build_mode_prompt.
  destruct (decide (mode = "base")); [reflexivity|]. now rewrite Hnone.
Qed.

Lemma build_mode_prompt_no_modifier base_prompt mode use_json mode_prompts :
  PROMPTS cfg !! mode = Some mode_prompts ->
  mode_prompts !! prompt_key use_json = None ->
  _build_mode_prompt cfg base_prompt mode use_json = base_prompt.
Proof.
  intros Hsome Hkey. unfold _build_mode_prompt, prompt_key in *.
  destruct (decide (mode = "base")); [reflexivity|].
  rewrite Hsome. cbn zeta. rewrite Hkey. reflexivity.
Qed.

Lemma build_mode_prompt_empty base_prompt mode use_json mode_prompts :
  PROMPTS cfg !! mode = Some mode_prompts ->
  mode_prompts !! prompt_key use_json = Some "" ->
  _build_mode_prompt cfg base_prompt mode use_json = base_prompt.
Proof.
  intros Hsome Hkey. unfold _build_mode_prompt, prompt_key in *.
  destruct (decide (mode = "base")); [reflexivity|].
  rewrite Hsome. cbn zeta. rewrite Hkey. reflexivity.
Qed.

Lemma build_mode_prompt_placeholder base_prompt mode use_json mode_prompts
    modifier :
  PROMPTS cfg !! mode = Some mode_prompts ->
  mode_prompts !! prompt_key use_json = Some modifier ->
  contains "TODO" modifier = true ->
  _build_mode_prompt cfg base_prompt mode use_json = base_prompt.
Proof.
  intros Hsome Hkey Htodo. unfold _build_mode_prompt, prompt_key in *.
  destruct (decide (mode = "base")); [reflexivity|].
  rewrite Hsome. cbn zeta. rewrite Hkey. cbn [default from_option id].
  rewrite Htodo, orb_true_r. reflexivity.
Qed.

Lemma append_nonempty_neq (a b : string) : b <> "" -> a +:+ b <> a.
Proof.
  intros Hb Heq. apply Hb.
  induction a as [|c a IH]; cbn in Heq; [exact Heq|].
  injection Heq as Heq. now apply IH.
Qed.

(** C6. When the mode is not registered in [PROMPTS], or is registered
    without a modifier for the phase (none, or an empty one), or its
    modifier for the phase contains the placeholder marker [TODO],
    [_build_mode_prompt] returns the base prompt it was given, unchanged; in
    particular the result is not the base prompt extended by a
    schema-instruction block, whatever [JSON_SCHEMA_INSTRUCTIONS] registers
    for the mode. *)
Theorem build_mode_prompt_falls_back_to_base :
  forall (base_prompt mode : string) (use_json : bool),
    (PROMPTS cfg !! mode = None
     \/ (exists mode_prompts,
           PROMPTS cfg !! mode = Some mode_prompts /\
           (mode_prompts !! prompt_key use_json = None
            \/ mode_prompts !! prompt_key use_json = Some ""))
     \/ (exists mode_prompts modifier,
           PROMPTS cfg !! mode = Some mode_prompts /\
           mode_prompts !! prompt_key use_json = Some modifier /\
           contains "TODO" modifier = true)) ->
    _build_mode_prompt cfg base_prompt mode use_json = base_prompt
    /\ forall middle instructions,
         JSON_SCHEMA_INSTRUCTIONS cfg !! mode = Some instructions ->
         _build_mode_prompt cfg base_prompt mode use_json
         <> base_prompt +:+ middle +:+ nl2 +:+ instructions.
Proof.
  intros base_prompt mode use_json H.
  assert (Hbase : _build_mode_prompt cfg base_prompt mode use_json
                  = base_prompt).
  { destruct H as [H | [(mp & H1 & [H2|H2]) | (mp & m & H1 & H2 & H3)]].
    - now apply build_mode_prompt_unknown.
    - now apply build_mode_prompt_no_modifier with mp.
    - now apply build_mode_prompt_empty with mp.
    - now apply build_mode_prompt_placeholder with mp m. }
  split; [exact Hbase|].
  intros middle instructions _. rewrite Hbase. intros Heq.
  symmetry in Heq. revert Heq. apply append_nonempty_neq.
  destruct middle; discriminate.
Qed.

End PromptComposer.

(** The demo configuration registers [talk] with a placeholder for the
    structured phase: the composed prompt is the base prompt. *)
Lemma build_mode_prompt_falls_back_to_base_witness :
  (exists mode_prompts modifier,
     PROMPTS Demo.cfg !! "talk" = Some mode_prompts /\
     mode_prompts !! prompt_key true = Some modifier /\
     contains "TODO" modifier = true)
  /\ _build_mode_prompt Demo.cfg "You are Chimera. Answer in JSON." "talk" true
     = "You are Chimera. Answer in JSON.".
Proof.
  assert (H : exists mode_prompts modifier,
     PROMPTS Demo.cfg !! "talk" = Some mode_prompts /\
     mode_prompts !! prompt_key true = Some modifier /\
     contains "TODO" modifier = true).
  { exists (<["json" := "TODO: talk modifier"]>
              (<["normal" := "Keep it casual."]> ∅)), "TODO: talk modifier".
    split; [vm_compute; reflexivity|]. split; vm_compute; reflexivity. }
  split; [exact H|].
  apply (build_mode_prompt_falls_back_to_base Demo.cfg
           "You are Chimera. Answer in JSON." "talk" true).
  right; right; exact H.
Defined.

(** ** Structured extraction *)

(** The [response] field of a parsed payload, when the payload is a dict
    that has one. *)
Definition response_field (data : value) : option value :=
  match data with
  | VDict d => dict_get d "response"
  | _ => None
  end.

Lemma extract_from_json_found (env : Env) (response user : string)
    (data r : value) :
  json_loads env response = Ok data ->
  response_field data = Some r ->
  _extract_from_json env response user false = Ok r
  /\ _extract_from_json env response user true = Ok data.
Proof.
  intros Hloads Hr. unfold _extract_from_json, response_field in *.
  rewrite Hloads. destruct data; try discriminate. rewrite Hr. split.
  - reflexivity.
  - now destruct (swallow _).
Qed.

Lemma extract_from_json_missing (env : Env) (response user : string)
    (data : value) (return_full_dict : bool) :
  json_loads env response = Ok data ->
  response_field data = None ->
  _extract_from_json env response user return_full_dict
  = Raise (ValueError "JSON doesn't contain 'response' field" None).
Proof.
  intros Hloads Hnone. unfold _extract_from_json, response_field in *.
  rewrite Hloads. destruct (if return_full_dict then swallow _ else tt).
  destruct data; try reflexivity. now rewrite Hnone.
Qed.

(** C5. For a parsed payload that is a dict holding a [response] key,
    [_extract_from_json] returns the value of that field as it is, or the
    whole dict as it is when [return_full_dict] is set; for a payload
    without that key, a non-dict value included, it raises a [ValueError],
    whatever else the payload holds. *)
Theorem extract_from_json_returns_response_field :
  forall (env : Env) (response user : string) (data : value),
    json_loads env response = Ok data ->
    (forall r, response_field data = Some r ->
       _extract_from_json env response user false = Ok r /\
       _extract_from_json env response user true = Ok data)
    /\ (response_field data = None ->
        forall return_full_dict,
          _extract_from_json env response user return_full_dict
          = Raise (ValueError "JSON doesn't contain 'response' field" None)).
Proof.
  intros env response user data Hloads. split.
  - intros r Hr. now apply extract_from_json_found.
  - intros Hnone full. now apply extract_from_json_missing with data.
Qed.

(** The two demo payloads: one holds [response], one does not. *)
Lemma extract_from_json_returns_response_field_witness :
  json_loads (Demo.env "" "" None) Demo.text_hi
    = Ok (VDict [("response", VStr "hi there")])
  /\ _extract_from_json (Demo.env "" "" None) Demo.text_hi "u1" false
     = Ok (VStr "hi there")
  /\ _extract_from_json (Demo.env "" "" None) Demo.text_hi "u1" true
     = Ok (VDict [("response", VStr "hi there")]).
Proof.
  assert (H : json_loads (Demo.env "" "" None) Demo.text_hi
              = Ok (VDict [("response", VStr "hi there")]))
    by (vm_compute; reflexivity).
  split; [exact H|].
  apply (extract_from_json_returns_response_field
           (Demo.env "" "" None) Demo.text_hi "u1" _ H).
  reflexivity.
Defined.

(** ** Schema validation *)

Section SchemaValidator.

Variable cfg : Config.
Variable env : Env.

(** [JSON_VALIDATION_CONFIG.get('max_validation_errors', 5)] *)
Definition max_validation_errors : Z :=
  default 5 (JSON_VALIDATION_CONFIG cfg !! "max_validation_errors").

(** The error list the [except] clauses of
    [_validate_structured_response] build before the cap is applied;
    [None] for an exception they do not catch. *)
Definition collected_errors (e : exn) : option (list string) :=
  match e with
  | ValidationError errs _ => Some (format_errors errs)
  | ValueError _ (Some (ValidationError errs _)) => Some (format_errors errs)
  | ValueError _ _ | JSONDecodeError _ => Some [str_exn e]
  | _ => None
  end.

(** The count-only entry that closes a truncated list. *)
Definition summary_entry (dropped : Z) : string :=
  "... and " +:+ str_int dropped +:+ " more errors".

Lemma slice_to_nonneg {A} (l : list A) (m : Z) :
  0 <= m -> slice_to l m = take (Z.to_nat m) l.
Proof.
  intros Hm. unfold slice_to.
  destruct (Z.ltb_spec m 0); [lia | reflexivity].
Qed.

Lemma limit_errors_spec (errors : list string) :
  0 <= max_validation_errors ->
  limit_errors cfg errors =
    if max_validation_errors <? Z.of_nat (length errors)
    then (take (Z.to_nat max_validation_errors) errors ++
          [summary_entry
             (Z.of_nat (length errors) - max_validation_errors)])%list
    else errors.
Proof.
  intros Hcap. unfold limit_errors. fold max_validation_errors.
  destruct (max_validation_errors <? Z.of_nat (length errors));
    [|reflexivity].
  now rewrite slice_to_nonneg.
Qed.

Lemma validate_failure (response_dict : value) (mode : string) (e : exn)
    (raw : list string) :
  JSON_VALIDATION_ENABLED cfg = true ->
  parse_response env response_dict mode = Some e ->
  collected_errors e = Some raw ->
  _validate_structured_response cfg env response_dict mode
  = Ok (false, limit_errors cfg raw).
Proof.
  intros Hen Hparse Hraw. unfold _validate_structured_response.
  rewrite Hen, Hparse. cbn [negb].
  destruct e as [m|errs t|m [c|]| | | | | |]; try discriminate;
    try (destruct c); cbn in Hraw; injection Hraw as <-; reflexivity.
Qed.

(** C7. When [parse_response] rejects the payload with an exception the
    validator catches, and the configured cap [max_validation_errors] is
    not negative: if the collected errors outnumber the cap, the list
    [_validate_structured_response] returns is their first
    [max_validation_errors] entries, in order, followed by exactly one
    entry that only counts the dropped ones; otherwise it is the collected
    list itself. *)
Theorem validation_errors_truncated_at_cap :
  forall (response_dict : value) (mode : string) (e : exn)
         (raw : list string),
    JSON_VALIDATION_ENABLED cfg = true ->
    parse_response env response_dict mode = Some e ->
    collected_errors e = Some raw ->
    0 <= max_validation_errors ->
    exists errors,
      _validate_structured_response cfg env response_dict mode
      = Ok (false, errors)
      /\ (max_validation_errors < Z.of_nat (length raw) ->
          errors = (take (Z.to_nat max_validation_errors) raw ++
                    [summary_entry
                       (Z.of_nat (length raw) - max_validation_errors)])%list
          /\ Z.of_nat (length errors) = max_validation_errors + 1
          /\ forall i x, (i < Z.to_nat max_validation_errors)%nat ->
               raw !! i = Some x -> errors !! i = Some x)
      /\ (Z.of_nat (length raw) <= max_validation_errors -> errors = raw).
Proof.
  intros response_dict mode e raw Hen Hparse Hraw Hcap.
  exists (limit_errors cfg raw). split.
  - now apply validate_failure with e.
  - rewrite limit_errors_spec by assumption. split.
    + intros Hlt.
      destruct (Z.ltb_spec max_validation_errors (Z.of_nat (length raw)));
        [|lia].
      split; [reflexivity|]. split.
      * rewrite length_app, length_take. cbn [length]. lia.
      * intros i x Hi Hx. rewrite lookup_app_l by (rewrite length_take; lia).
        now rewrite lookup_take_lt.
    + intros Hle.
      destruct (Z.ltb_spec max_validation_errors (Z.of_nat (length raw)));
        [lia | reflexivity].
Qed.

End SchemaValidator.

Module DemoValidation.

Definition three_errors : list error_detail :=
  [{| loc := [LocStr "sources"; LocInt 0];
      msg := "Input should be a valid string" |};
   {| loc := [LocStr "confidence"]; msg := "Field required" |};
   {| loc := [LocStr "tone"]; msg := "Field required" |}].

(** The demo environment with a validator that reports three errors. *)
Definition env : Env :=
  {| json_loads := json_loads (Demo.env "" "" None);
     str_value := str_value (Demo.env "" "" None);
     parse_response := fun _ _ =>
       Some (ValidationError three_errors "3 validation errors");
     create_completion := create_completion (Demo.env "" "" None);
     append_event := append_event (Demo.env "" "" None);
     monotonic := monotonic (Demo.env "" "" None) |}.

End DemoValidation.

(** Three errors against the demo cap of 2: two entries and the summary. *)
Lemma validation_errors_truncated_at_cap_witness :
  _validate_structured_response Demo.cfg DemoValidation.env
    (VDict [("response", VStr "hi there")]) "expert"
  = Ok (false, ["sources.0: Input should be a valid string";
                "confidence: Field required";
                "... and 1 more errors"]).
Proof.
  destruct (validation_errors_truncated_at_cap Demo.cfg DemoValidation.env
              (VDict [("response", VStr "hi there")]) "expert"
              (ValidationError DemoValidation.three_errors
                 "3 validation errors")
              (format_errors DemoValidation.three_errors))
    as (errors & Hrun & Hover & _).
  - reflexivity.
  - reflexivity.
  - reflexivity.
  - vm_compute. discriminate.
  - rewrite Hrun. destruct Hover as (-> & _).
    + vm_compute. reflexivity.
    + vm_compute. reflexivity.
Defined.

(** ** Cache metrics *)

Section CacheMetrics.

Variable cfg : Config.
Variable env : Env.

(** The [cache_hit_rate] entry of an event's data. *)
Definition recorded_rate (ev : BaseEvent) : option value :=
  dict_get (data ev) "cache_hit_rate".

Lemma set_generation_count_emitted x s :
  emitted (set_generation_count x s) = emitted s.
Proof. reflexivity. Qed.

Lemma log_cache_metrics_no_tokens hit_tokens miss_tokens s :
  hit_tokens + miss_tokens <= 0 ->
  _log_cache_metrics cfg env hit_tokens miss_tokens s
  = (Ok tt, set_generation_count (_generation_count s + 1) s).
Proof.
  intros Hle. unfold _log_cache_metrics, bind, modify, ret.
  destruct (Z.ltb_spec 0 (hit_tokens + miss_tokens)); [lia | reflexivity].
Qed.

Lemma log_cache_metrics_counts hit_tokens miss_tokens s :
  _generation_count (snd (_log_cache_metrics cfg env hit_tokens miss_tokens s))
  = _generation_count s + 1.
Proof.
  unfold _log_cache_metrics, bind, modify, ret, log_periodically,
    _append_event.
  destruct (0 <? hit_tokens + miss_tokens); [|reflexivity].
  cbn. destruct (CACHE_HIT_LOG_INTERVAL cfg =? 0); [reflexivity|].
  destruct (_ mod _ =? 0); [destruct (_ =? 0); [reflexivity|]|];
    destruct (append_event env _ _); reflexivity.
Qed.

Lemma log_cache_metrics_emits hit_tokens miss_tokens s :
  let s' := snd (_log_cache_metrics cfg env hit_tokens miss_tokens s) in
  let ev := cache_hit_metric_event hit_tokens miss_tokens
              (inject_Z hit_tokens / inject_Z (hit_tokens + miss_tokens)) in
  emitted s' = emitted s \/ emitted s' = emitted s ++ [ev].
Proof.
  unfold _log_cache_metrics, bind, modify, ret, log_periodically,
    _append_event.
  destruct (0 <? hit_tokens + miss_tokens); [|left; reflexivity].
  cbn. destruct (CACHE_HIT_LOG_INTERVAL cfg =? 0); [left; reflexivity|].
  destruct (_ mod _ =? 0); [destruct (_ =? 0); [left; reflexivity|]|];
    destruct (append_event env _ _); right; reflexivity.
Qed.

Lemma log_cache_metrics_emits_when_positive hit_tokens miss_tokens s :
  0 < hit_tokens + miss_tokens ->
  CACHE_HIT_LOG_INTERVAL cfg <> 0 ->
  _generation_count s + 1 <> 0 ->
  emitted (snd (_log_cache_metrics cfg env hit_tokens miss_tokens s))
  = emitted s ++
    [cache_hit_metric_event hit_tokens miss_tokens
       (inject_Z hit_tokens / inject_Z (hit_tokens + miss_tokens))].
Proof.
  intros Hpos Hint Hcount.
  unfold _log_cache_metrics, bind, modify, ret, log_periodically,
    _append_event.
  destruct (Z.ltb_spec 0 (hit_tokens + miss_tokens)); [|lia].
  cbn. destruct (Z.eqb_spec (CACHE_HIT_LOG_INTERVAL cfg) 0); [contradiction|].
  destruct (_ mod _ =? 0);
    [destruct (Z.eqb_spec (_generation_count s + 1) 0); [contradiction|]|];
    destruct (append_event env _ _); reflexivity.
Qed.

Lemma rate_is_quotient (hit_tokens total_tokens : Z) :
  0 < total_tokens ->
  (inject_Z hit_tokens / inject_Z total_tokens
   == hit_tokens # Z.to_pos total_tokens)%Q.
Proof.
  intros Hpos. unfold Qdiv, Qinv, inject_Z, Qeq, Qmult. cbn.
  destruct total_tokens as [|p|p]; try lia. cbn. lia.
Qed.

(** C8. [_log_cache_metrics] always increments the generation counter.
    It hands the sink nothing, or exactly one [CacheHitMetricEvent] whose
    recorded rate is [hit_tokens / (hit_tokens + miss_tokens)]; the event
    is handed over whenever the token total is positive and the periodic
    log line does not divide by zero.  When the token total is zero the
    call returns normally and leaves the emitted events, the event log and
    the cumulative hit accumulator as they were. *)
Theorem log_cache_metrics_rate_and_zero_total :
  forall (hit_tokens miss_tokens : Z) (s : State),
    let out := _log_cache_metrics cfg env hit_tokens miss_tokens s in
    let rate :=
      (inject_Z hit_tokens / inject_Z (hit_tokens + miss_tokens))%Q in
    let ev := cache_hit_metric_event hit_tokens miss_tokens rate in
    _generation_count (snd out) = _generation_count s + 1
    /\ (emitted (snd out) = emitted s \/ emitted (snd out) = emitted s ++ [ev])
    /\ recorded_rate ev = Some (VFloat rate)
    /\ (0 < hit_tokens + miss_tokens ->
        (rate == hit_tokens # Z.to_pos (hit_tokens + miss_tokens))%Q
        /\ (CACHE_HIT_LOG_INTERVAL cfg <> 0 ->
            _generation_count s + 1 <> 0 ->
            emitted (snd out) = emitted s ++ [ev]))
    /\ (hit_tokens + miss_tokens = 0 ->
        fst out = Ok tt
        /\ emitted (snd out) = emitted s
        /\ event_log (snd out) = event_log s
        /\ _total_cache_hits (snd out) = _total_cache_hits s).
Proof.
  intros hit_tokens miss_tokens s out rate ev. subst out rate ev.
  split; [apply log_cache_metrics_counts|].
  split; [apply log_cache_metrics_emits|].
  split; [reflexivity|].
  split.
  - intros Hpos. split; [now apply rate_is_quotient|].
    intros Hint Hcount. now apply log_cache_metrics_emits_when_positive.
  - intros Hzero. rewrite log_cache_metrics_no_tokens by lia.
    repeat split; reflexivity.
Qed.

End CacheMetrics.

(** ** Messages of another type *)

(** C10. For a message whose [message_type] is not [GENERATE_RESPONSE],
    [handle_message] returns [None] and leaves the whole state as it was:
    nothing is sent, no event is emitted, and the generation count, the
    cache-hit accumulator, the JSON-failure counter and the per-mode
    counters keep their values. *)
Theorem handle_message_ignores_other_types :
  forall (cfg : Config) (env : Env) (message : ActorMessage) (s : State),
    message_type message <> MessageType_value GENERATE_RESPONSE ->
    handle_message cfg env message s = (Ok None, s).
Proof.
  intros cfg env message s Hne. unfold handle_message.
  now rewrite bool_decide_eq_true_2.
Qed.

(** A [PING] carrying a full payload is ignored by a fresh actor. *)
Lemma handle_message_ignores_other_types_witness :
  handle_message Demo.cfg (Demo.env Demo.text_hi "" None)
    {| sender_id := Some "telegram";
       message_type := MessageType_value PING;
       payload := {| user_id := Some "u1"; chat_id := Some (VInt 7);
                     text := Some (VStr "hello"); include_prompt := None;
                     mode := None; error := None; error_type := None |} |}
    (initialize true)
  = (Ok None, initialize true).
Proof.
  apply (handle_message_ignores_other_types Demo.cfg
           (Demo.env Demo.text_hi "" None)).
  vm_compute. discriminate.
Defined.

(** ** The breaker's state machine *)

Module BreakerProperties.

Import CircuitBreaker.

Section Calls.

Context {W A : Type}.














End Calls.



End BreakerProperties.

(** ** What a provider call leaves behind *)

Section ProviderCall.

Variable cfg : Config.
Variable env : Env.

(** The attributes and traces that neither [_log_cache_metrics] nor the
    breaker touches. *)
Definition untouched_by_call (s s' : State) : Prop :=
  _json_failures s' = _json_failures s
  /\ _mode_success_counts s' = _mode_success_counts s
  /\ _mode_failure_counts s' = _mode_failure_counts s
  /\ outbox s' = outbox s
  /\ actor_system s' = actor_system s.

Lemma log_cache_metrics_frame hit_tokens miss_tokens s :
  let s' := snd (_log_cache_metrics cfg env hit_tokens miss_tokens s) in
  untouched_by_call s s' /\ requests s' = requests s.
Proof.
  unfold untouched_by_call, _log_cache_metrics, bind, modify, ret,
    log_periodically, _append_event.
  destruct (0 <? hit_tokens + miss_tokens); [|now cbn].
  cbn. destruct (CACHE_HIT_LOG_INTERVAL cfg =? 0); [now cbn|].
  destruct (_ mod _ =? 0); [destruct (_ =? 0); [now cbn|]|];
    destruct (append_event env _ _); now cbn.
Qed.

(** A [CacheHitMetricEvent], whatever it records. *)
Definition is_cache_metric (ev : BaseEvent) : Prop :=
  event_type ev = "CacheHitMetricEvent".

(** [_call_api] returned [response]: the breaker let the call through, the
    provider was asked exactly once, with the given messages and format,
    and at most one event, a cache metric, was handed to the sink. *)
Lemma call_api_returns msgs use_json mode s response s' :
  _call_api cfg env msgs use_json mode s = (Ok response, s') ->
  exists mode_params,
    mode_generation_params cfg mode = Ok mode_params
    /\ requests s' = requests s ++ [api_kwargs cfg mode_params msgs use_json]
    /\ (emitted s' = emitted s
        \/ exists ev, is_cache_metric ev /\ emitted s' = emitted s ++ [ev])
    /\ untouched_by_call s s'.
Proof.
  unfold _call_api.
  set (s0 := set_breaker_calls (S (breaker_calls s)) s).
  unfold CircuitBreaker.call.
  destruct (CircuitBreaker.allow _ _) as [cb1|]; [|discriminate].
  destruct (api_call cfg env msgs use_json mode s0) as [[a|e] w] eqn:Hop;
    [|discriminate].
  intros Heq. injection Heq as -> <-.
  unfold api_call, bind, lift in Hop.
  destruct (mode_generation_params cfg mode) as [mode_params|]; [|discriminate].
  exists mode_params. split; [reflexivity|].
  destruct (create_completion env _ _) as [chunks|]; [|discriminate].
  destruct (fold_left consume_chunk chunks ("", 0, 0)) as [[full hit] miss].
  unfold bind in Hop.
  set (s1 := set_requests _ s0) in Hop.
  pose proof (log_cache_metrics_frame hit miss s1) as [Hframe Hreq].
  pose proof (log_cache_metrics_emits cfg env hit miss s1) as Hem.
  cbn zeta in Hframe, Hreq, Hem.
  destruct (_log_cache_metrics cfg env hit miss s1) as [[[]|e] s2];
    [|discriminate].
  unfold ret in Hop. injection Hop as -> <-. cbn [snd] in *.
  split; [exact Hreq|]. split.
  - destruct Hem as [Hem|Hem]; [left; exact Hem|].
    right. eexists. split; [|exact Hem]. reflexivity.
  - exact Hframe.
Qed.

End ProviderCall.

(** ** The fallback protocol *)

Section Fallback.

Variable cfg : Config.
Variable env : Env.

(** The event [_log_json_failure] builds. *)
Definition json_mode_failure_event (user error : string) : BaseEvent :=
  {| stream_id := "user_" +:+ user;
     event_type := "JSONModeFailureEvent";
     data := [("user_id", VStr user); ("error", VStr error)] |}.

(** The state once the [except] clause of [_generate_response] has counted
    the failure and the sink has accepted its event. *)
Definition failure_recorded (user error : string) (s : State) : State :=
  let s1 := set_json_failures (_json_failures s + 1) s in
  let ev := json_mode_failure_event user error in
  let s2 := set_emitted (emitted s1 ++ [ev]) s1 in
  set_event_log (event_log s2 ++ [ev]) s2.

(** How many events of one type a trace holds. *)
Definition count_type (t : string) (l : list BaseEvent) : nat :=
  length (filter (fun ev => event_type ev = t) l).

(** The events handed to the sink between two states. *)
Definition emitted_since (s s' : State) : list BaseEvent :=
  drop (length (emitted s)) (emitted s').

Lemma count_type_app t l1 l2 :
  count_type t (l1 ++ l2) = (count_type t l1 + count_type t l2)%nat.
Proof. unfold count_type. now rewrite filter_app, length_app. Qed.

Lemma emitted_since_app s s' l :
  emitted s' = emitted s ++ l -> emitted_since s s' = l.
Proof.
  intros H. unfold emitted_since. rewrite H. apply drop_app_length.
Qed.

Lemma count_cache_metric_only s s' :
  (emitted s' = emitted s
   \/ exists ev, is_cache_metric ev /\ emitted s' = emitted s ++ [ev]) ->
  exists l, emitted s' = emitted s ++ l
            /\ count_type "JSONModeFailureEvent" l = 0%nat
            /\ count_type "GenerationParametersUsedEvent" l = 0%nat.
Proof.
  intros [H|(ev & Hty & H)].
  - exists []. rewrite app_nil_r. now split.
  - exists [ev]. split; [exact H|].
    unfold count_type, is_cache_metric in *. cbn. rewrite Hty.
    split; reflexivity.
Qed.

(** The state once the [except] clause has counted the failure and the
    sink has refused its event: the event was handed over, not stored. *)
Definition failure_rejected (user error : string) (s : State) : State :=
  let s1 := set_json_failures (_json_failures s + 1) s in
  set_emitted (emitted s1 ++ [json_mode_failure_event user error]) s1.

(** The system prompt of the fallback phase, in the spec's words: the base
    prompt of the plain phase, followed by the mode's modifier for that
    phase when the mode is not [base] and the modifier is registered,
    non-empty and no placeholder.  A schema-instruction block is never
    part of it. *)
Definition fallback_prompt (base_normal md : string) : string :=
  if decide (md = "base") then base_normal
  else
    match PROMPTS cfg !! md ≫= (fun mode_prompts => mode_prompts !! "normal")
    with
    | Some modifier =>
        if bool_decide (modifier = "") || contains "TODO" modifier
        then base_normal
        else base_normal +:+ nl2 +:+ modifier
    | None => base_normal
    end.

(** The messages of the fallback phase, in the spec's words: the user
    message last, preceded by the system message when a prompt is asked
    for. *)
Definition fallback_messages (text : value) (include : bool)
    (base_normal md : string) : list chat_message :=
  (if include
   then [{| role := "system";
            content := VStr (fallback_prompt base_normal md) |}]
   else [])
  ++ [{| role := "user"; content := text |}].

Lemma build_mode_prompt_fallback base_normal md :
  _build_mode_prompt cfg base_normal md false = fallback_prompt base_normal md.
Proof.
  unfold _build_mode_prompt, fallback_prompt.
  destruct (decide (md = "base")); [reflexivity|].
  destruct (PROMPTS cfg !! md) as [mode_prompts|]; cbn; [|reflexivity].
  destruct (mode_prompts !! "normal") as [modifier|]; cbn; reflexivity.
Qed.

(** What [_format_context] composes with [force_normal]. *)
Lemma format_context_fallback text include md msgs2 :
  _format_context cfg text include true md = Ok msgs2 ->
  if include
  then exists base_prompts base_normal,
         PROMPTS cfg !! "base" = Some base_prompts
         /\ base_prompts !! "normal" = Some base_normal
         /\ msgs2 = fallback_messages text true base_normal md
  else forall base_normal,
         msgs2 = fallback_messages text false base_normal md.
Proof.
  unfold _format_context, getitem, fallback_messages.
  destruct include; [|intros H _; now injection H as <-].
  rewrite andb_false_r.
  destruct (PROMPTS cfg !! "base") as [base_prompts|]; [|discriminate].
  destruct (base_prompts !! "normal") as [base_normal|] eqn:Hn;
    [|discriminate].
  intros H. injection H as <-. exists base_prompts, base_normal.
  rewrite build_mode_prompt_fallback. now repeat split.
Qed.

(** The [except] clause of the structured attempt on a text [json.loads]
    rejects, up to the point where the sink has answered. *)
Lemma malformed_enters_handler text user include md s msgs1 response1 s1 m :
  use_json_mode (PROMPT_CONFIG cfg) = true ->
  json_fallback_enabled (PROMPT_CONFIG cfg) = true ->
  _format_context cfg text include false md = Ok msgs1 ->
  _call_api cfg env msgs1 true md s = (Ok response1, s1) ->
  json_loads env response1 = Raise (JSONDecodeError m) ->
  _generate_response cfg env text user include md s
  = match append_event env (length (emitted s1))
            (json_mode_failure_event user m) with
    | Some e => (Raise e, failure_rejected user m s1)
    | None =>
        match _format_context cfg text include true md with
        | Raise e => (Raise e, failure_recorded user m s1)
        | Ok msgs2 =>
            match _call_api cfg env msgs2 false md
                    (failure_recorded user m s1) with
            | (Ok r, s3) => (Ok (VStr r), s3)
            | (Raise e, s3) => (Raise e, s3)
            end
        end
    end.
Proof.
  intros Hjson Hfb Hctx1 Hcall1 Hloads.
  unfold _generate_response, bind, lift. rewrite Hctx1, Hjson, Hcall1.
  unfold try_except, first_attempt, bind, lift, _extract_from_json.
  rewrite Hloads.
  unfold on_json_decode_error, bind, modify, lift, _log_json_failure,
    _append_event.
  cbn [is_JSONDecodeError str_exn].
  change (emitted (set_json_failures (_json_failures s1 + 1) s1))
    with (emitted s1).
  fold (json_mode_failure_event user m).
  destruct (append_event env (length (emitted s1))
              (json_mode_failure_event user m)) as [e|]; [reflexivity|].
  rewrite Hfb. cbn [andb].
  destruct (_format_context cfg text include true md) as [msgs2|e];
    [|reflexivity].
  unfold failure_recorded. cbn zeta.
  destruct (_call_api cfg env msgs2 false md _) as [[r|e] s3]; reflexivity.
Qed.

(** C3, as the code has it.  With structured mode and fallback enabled,
    when the first provider call returns a text that [json.loads] rejects,
    the failure is counted and a [JSONModeFailureEvent] is handed to the
    sink.  When the sink raises on that event, [_generate_response] fails
    with the sink's exception and issues no fallback call: the provider was
    asked once.  When the sink accepts it and the fallback messages cannot
    be composed, the request fails with that exception.  When the sink
    accepts it and the messages compose, they are the fallback messages
    (the user message, preceded, when a prompt is asked for, by the plain
    base prompt with the mode's plain modifier and no schema block);
    [_generate_response] issues the fallback call once on them, and its
    outcome is that call's outcome.  When the fallback call returns a
    text, that raw text is the result, the provider was asked exactly
    twice (first with the JSON response format, then without), exactly one
    [JSONModeFailureEvent] was emitted, no parameters event, and the
    JSON-failure counter grew by one. *)
Theorem malformed_response_falls_back_once :
  forall (text : value) (user : string) (include : bool) (md : string)
         (s s1 : State) (msgs1 : list chat_message) (response1 m : string),
    use_json_mode (PROMPT_CONFIG cfg) = true ->
    json_fallback_enabled (PROMPT_CONFIG cfg) = true ->
    _format_context cfg text include false md = Ok msgs1 ->
    _call_api cfg env msgs1 true md s = (Ok response1, s1) ->
    json_loads env response1 = Raise (JSONDecodeError m) ->
    let sink := append_event env (length (emitted s1))
                  (json_mode_failure_event user m) in
    let out := _generate_response cfg env text user include md s in
    (forall e, sink = Some e ->
       out = (Raise e, failure_rejected user m s1)
       /\ (exists req1,
             requests (snd out) = requests s ++ [req1]
             /\ messages req1 = msgs1
             /\ response_format req1 = Some "json_object")
       /\ _json_failures (snd out) = _json_failures s + 1)
    /\ (forall e, sink = None ->
          _format_context cfg text include true md = Raise e ->
          out = (Raise e, failure_recorded user m s1))
    /\ (forall msgs2, sink = None ->
          _format_context cfg text include true md = Ok msgs2 ->
          let retry := _call_api cfg env msgs2 false md
                         (failure_recorded user m s1) in
          (if include
           then exists base_prompts base_normal,
                  PROMPTS cfg !! "base" = Some base_prompts
                  /\ base_prompts !! "normal" = Some base_normal
                  /\ msgs2 = fallback_messages text true base_normal md
           else forall base_normal,
                  msgs2 = fallback_messages text false base_normal md)
          /\ snd out = snd retry
          /\ (forall e, fst retry = Raise e -> fst out = Raise e)
          /\ (forall response2, fst retry = Ok response2 ->
                fst out = Ok (VStr response2)
                /\ (exists req1 req2,
                      requests (snd out) = requests s ++ [req1; req2]
                      /\ messages req1 = msgs1
                      /\ response_format req1 = Some "json_object"
                      /\ messages req2 = msgs2
                      /\ response_format req2 = None)
                /\ count_type "JSONModeFailureEvent"
                     (emitted_since s (snd out)) = 1%nat
                /\ count_type "GenerationParametersUsedEvent"
                     (emitted_since s (snd out)) = 0%nat
                /\ _json_failures (snd out) = _json_failures s + 1)).
Proof.
  intros text user include md s s1 msgs1 response1 m
    Hjson Hfb Hctx1 Hcall1 Hloads sink out.
  pose proof (malformed_enters_handler text user include md s msgs1
                response1 s1 m Hjson Hfb Hctx1 Hcall1 Hloads) as Hout.
  fold out sink in Hout. clearbody out sink.
  destruct (call_api_returns cfg env _ _ _ _ _ _ Hcall1)
    as (p1 & _ & Hreq1 & Hem1 & Hjf1 & _).
  split; [|split].
  - intros e Hsink. rewrite Hsink in Hout. subst out. cbn [fst snd].
    split; [reflexivity|]. split.
    + exists (api_kwargs cfg p1 msgs1 true).
      cbn [failure_rejected requests set_emitted set_json_failures].
      rewrite Hreq1. now cbn.
    + cbn [failure_rejected _json_failures set_emitted set_json_failures].
      now rewrite Hjf1.
  - intros e Hsink Hctx2. now rewrite Hsink, Hctx2 in Hout.
  - intros msgs2 Hsink Hctx2 retry. rewrite Hsink, Hctx2 in Hout.
    fold retry in Hout. subst out.
    split; [exact (format_context_fallback text include md msgs2 Hctx2)|].
    destruct retry as [[r|e] s3] eqn:Hretry; cbn [fst snd].
    + split; [reflexivity|]. split; [discriminate|].
      intros response2 Heq. injection Heq as ->.
      split; [reflexivity|].
      subst retry.
      destruct (call_api_returns cfg env _ _ _ _ _ _ Hretry)
        as (p2 & _ & Hreq2 & Hem2 & Hjf2 & _).
      apply count_cache_metric_only in Hem1 as (l1 & Hl1 & Hc1 & Hp1).
      apply count_cache_metric_only in Hem2 as (l2 & Hl2 & Hc2 & Hp2).
      cbn [failure_recorded requests emitted _json_failures set_event_log
           set_emitted set_json_failures] in Hreq2, Hl2, Hjf2.
      split; [|split; [|split]].
      * exists (api_kwargs cfg p1 msgs1 true),
          (api_kwargs cfg p2 msgs2 false).
        rewrite Hreq2, Hreq1, <- app_assoc. now cbn.
      * rewrite (emitted_since_app s s3
                   (l1 ++ [json_mode_failure_event user m] ++ l2)).
        -- rewrite !count_type_app, Hc1, Hc2. reflexivity.
        -- rewrite Hl2, Hl1, <- !app_assoc. reflexivity.
      * rewrite (emitted_since_app s s3
                   (l1 ++ [json_mode_failure_event user m] ++ l2)).
        -- rewrite !count_type_app, Hp1, Hp2. reflexivity.
        -- rewrite Hl2, Hl1, <- !app_assoc. reflexivity.
      * rewrite Hjf2, Hjf1. reflexivity.
    + split; [reflexivity|]. split; [|discriminate].
      intros e' Heq. injection Heq as ->. reflexivity.
Qed.

End Fallback.

Module DemoFallback.

(** The provider answers [not json] first and [plain] to the retry. *)
Definition env : Env := Demo.env "not json" "plain" None.

(** The same provider, with a sink that accepts the cache metric
    (event 0) and fails on the next event. *)
Definition env_rejecting : Env := Demo.env "not json" "plain" (Some 1%nat).

Definition msgs1 : list chat_message :=
  [{| role := "system";
      content := VStr (_build_mode_prompt Demo.cfg
                         "You are Chimera. Answer in JSON." "expert" true) |};
   {| role := "user"; content := VStr "hello" |}].

Definition msgs2 : list chat_message :=
  [{| role := "system";
      content := VStr (_build_mode_prompt Demo.cfg
                         "You are Chimera." "expert" false) |};
   {| role := "user"; content := VStr "hello" |}].

Definition s1 : State :=
  snd (_call_api Demo.cfg env msgs1 true "expert" (initialize true)).

End DemoFallback.

(** C3 does not hold of the code: structured mode and fallback are
    enabled and the provider's first answer [not json] is rejected by
    [json.loads], but the sink raises on the [JSONModeFailureEvent];
    [_generate_response] raises the sink's exception, and the only request
    the provider received is the structured one. *)
Lemma rejected_failure_event_stops_the_fallback :
  let out := _generate_response Demo.cfg DemoFallback.env_rejecting
               (VStr "hello") "u1" true "expert" (initialize true) in
  use_json_mode (PROMPT_CONFIG Demo.cfg) = true
  /\ json_fallback_enabled (PROMPT_CONFIG Demo.cfg) = true
  /\ json_loads DemoFallback.env_rejecting "not json"
     = Raise (JSONDecodeError "Expecting value: line 1 column 1 (char 0)")
  /\ map response_format (requests (snd out)) = [Some "json_object"]
  /\ map event_type (emitted (snd out))
     = ["CacheHitMetricEvent"; "JSONModeFailureEvent"]
  /\ map event_type (event_log (snd out)) = ["CacheHitMetricEvent"]
  /\ fst out = Raise (Exception "event store unavailable").
Proof. vm_compute. repeat split; reflexivity. Qed.

(** The spec's scenario: the provider returns [not json], fallback is
    enabled and the sink accepts every event; the answer is the retry's
    raw text. *)
Lemma malformed_response_falls_back_once_witness :
  json_loads DemoFallback.env "not json"
    = Raise (JSONDecodeError "Expecting value: line 1 column 1 (char 0)")
  /\ fst (_generate_response Demo.cfg DemoFallback.env (VStr "hello") "u1"
            true "expert" (initialize true))
     = Ok (VStr "plain")
  /\ count_type "JSONModeFailureEvent"
       (emitted_since (initialize true)
          (snd (_generate_response Demo.cfg DemoFallback.env (VStr "hello")
                  "u1" true "expert" (initialize true))))
     = 1%nat.
Proof.
  assert (Hloads : json_loads DemoFallback.env "not json"
    = Raise (JSONDecodeError "Expecting value: line 1 column 1 (char 0)"))
    by (vm_compute; reflexivity).
  split; [exact Hloads|].
  destruct (malformed_response_falls_back_once Demo.cfg DemoFallback.env
              (VStr "hello") "u1" true "expert" (initialize true)
              DemoFallback.s1 DemoFallback.msgs1
              "not json" "Expecting value: line 1 column 1 (char 0)")
    as (_ & _ & Hok).
  - reflexivity.
  - reflexivity.
  - vm_compute; reflexivity.
  - vm_compute; reflexivity.
  - exact Hloads.
  - destruct (Hok DemoFallback.msgs2) as (_ & _ & _ & Hret).
    + vm_compute; reflexivity.
    + vm_compute; reflexivity.
    + destruct (Hret "plain") as (Hres & _ & Hcount & _).
      * vm_compute; reflexivity.
      * split; [exact Hres | exact Hcount].
Defined.

(** ** A well-formed answer without the [response] field *)

Section MissingField.

Variable cfg : Config.
Variable env : Env.

(** The [ValueError] of [_extract_from_json] is no [JSONDecodeError]: the
    [except] clause of [_generate_response] lets it through, so nothing is
    counted, no event is emitted and no fallback call is made. *)
Lemma missing_field_propagates text user include md s msgs response s1 data :
  use_json_mode (PROMPT_CONFIG cfg) = true ->
  _format_context cfg text include false md = Ok msgs ->
  _call_api cfg env msgs true md s = (Ok response, s1) ->
  json_loads env response = Ok data ->
  response_field data = None ->
  _generate_response cfg env text user include md s
  = (Raise (ValueError "JSON doesn't contain 'response' field" None), s1).
Proof.
  intros Hjson Hctx Hcall Hloads Hnone.
  unfold _generate_response, bind, lift. rewrite Hctx, Hjson, Hcall.
  unfold try_except, first_attempt, bind, lift.
  rewrite (extract_from_json_missing env response user data true Hloads Hnone).
  reflexivity.
Qed.

End MissingField.

Module DemoMissingField.

(** The provider answers [{"answer": "hi there"}]; a retry would be
    answered [plain]. *)
Definition env : Env := Demo.env Demo.text_no_response "plain" None.

Definition request : ActorMessage :=
  {| sender_id := Some "user_session";
     message_type := MessageType_value GENERATE_RESPONSE;
     payload := {| user_id := Some "u1"; chat_id := Some (VInt 7);
                   text := Some (VStr "hello"); include_prompt := None;
                   mode := None; error := None; error_type := None |} |}.

(** The demo configuration with fallback switched off. *)
Definition cfg_no_fallback : Config :=
  {| PROMPTS := PROMPTS Demo.cfg;
     PROMPT_CONFIG :=
       {| use_json_mode := true; json_fallback_enabled := false |};
     JSON_SCHEMA_INSTRUCTIONS := JSON_SCHEMA_INSTRUCTIONS Demo.cfg;
     MODE_GENERATION_PARAMS := MODE_GENERATION_PARAMS Demo.cfg;
     GENERATION_PARAMS_LOG_CONFIG := GENERATION_PARAMS_LOG_CONFIG Demo.cfg;
     JSON_VALIDATION_CONFIG := JSON_VALIDATION_CONFIG Demo.cfg;
     JSON_VALIDATION_ENABLED := JSON_VALIDATION_ENABLED Demo.cfg;
     JSON_VALIDATION_LOG_FAILURES := JSON_VALIDATION_LOG_FAILURES Demo.cfg;
     CACHE_HIT_LOG_INTERVAL := CACHE_HIT_LOG_INTERVAL Demo.cfg;
     DEEPSEEK_MODEL := DEEPSEEK_MODEL Demo.cfg |}.

End DemoMissingField.

(** C1 does not hold of the code.  Structured mode and fallback are
    enabled and the provider's first answer is the well-formed
    [{"answer": "hi there"}]: [_generate_response] raises the extractor's
    [ValueError]; the JSON-failure counter stays 0, no
    [JSONModeFailureEvent] is emitted and the provider is asked only once.
    [handle_message] reports the failure as an [ERROR] message.  With
    fallback switched off the request fails in the same way; the raw text is
    not returned. *)
Theorem missing_response_field_skips_fallback :
  let out := _generate_response Demo.cfg DemoMissingField.env (VStr "hello")
               "u1" true "base" (initialize true) in
  let out_off := _generate_response DemoMissingField.cfg_no_fallback
                   DemoMissingField.env (VStr "hello") "u1" true "base"
                   (initialize true) in
  let handled := handle_message Demo.cfg DemoMissingField.env
                   DemoMissingField.request (initialize true) in
  use_json_mode (PROMPT_CONFIG Demo.cfg) = true
  /\ json_fallback_enabled (PROMPT_CONFIG Demo.cfg) = true
  /\ json_loads DemoMissingField.env Demo.text_no_response
     = Ok (VDict [("answer", VStr "hi there")])
  /\ fst out = Raise (ValueError "JSON doesn't contain 'response' field" None)
  /\ _json_failures (snd out) = 0
  /\ count_type "JSONModeFailureEvent" (emitted (snd out)) = 0%nat
  /\ length (requests (snd out)) = 1%nat
  /\ map (fun m => message_type (snd m)) (outbox (snd handled))
     = [MessageType_value ERROR]
  /\ fst out_off
     = Raise (ValueError "JSON doesn't contain 'response' field" None)
  /\ _json_failures (snd out_off) = 0.
Proof. vm_compute. repeat split; reflexivity. Qed.

(** ** An unregistered mode *)

Section UnknownMode.

Variable cfg : Config.
Variable env : Env.

(** The keys of the two per-mode counters set up by [__init__]. *)
Definition known_modes : gset string :=
  {[ "base"; "talk"; "expert"; "creative" ]}.

(** The event [_log_validation_failure] builds. *)
Definition validation_failed_event (user : string) (errors : list string)
    (response_data : list (string * value)) : BaseEvent :=
  {| stream_id := "validation_" +:+ user;
     event_type := "JSONValidationFailedEvent";
     data := [("user_id", VStr user);
              ("errors", VList (map VStr errors));
              ("response_fields",
               VList (map VStr (dict_keys response_data)))] |}.

(** The state in which the metric update is reached: after a failed
    validation the sink has accepted its event. *)
Definition validation_logged (is_valid : bool) (user : string)
    (errors : list string) (d : list (string * value)) (s : State)
    : State :=
  if is_valid then s
  else
    let ev := validation_failed_event user errors d in
    let s1 := set_emitted (emitted s ++ [ev]) s in
    set_event_log (event_log s1 ++ [ev]) s1.

(** C9, for an answer that holds [response].  With structured mode and
    validation logging enabled, for a mode that is no key of the per-mode
    counters: when the first provider call returns a text that parses as a
    dict holding [response], the validator returns a verdict and, for a
    negative verdict, the sink accepts the validation event, then
    [_generate_response] fails with [KeyError] for that mode, raised by the
    counter update; both counters are left as they were and no
    [GenerationParametersUsedEvent] is emitted. *)
Theorem unknown_mode_counter_update_raises :
  forall (text : value) (user : string) (include : bool) (md : string)
         (s s1 : State) (msgs : list chat_message) (response : string)
         (d : list (string * value)) (r : value) (is_valid : bool)
         (errors : list string),
    use_json_mode (PROMPT_CONFIG cfg) = true ->
    JSON_VALIDATION_LOG_FAILURES cfg = true ->
    md ∉ known_modes ->
    dom (_mode_success_counts s) = known_modes ->
    dom (_mode_failure_counts s) = known_modes ->
    _format_context cfg text include false md = Ok msgs ->
    _call_api cfg env msgs true md s = (Ok response, s1) ->
    json_loads env response = Ok (VDict d) ->
    dict_get d "response" = Some r ->
    _validate_structured_response cfg env (VDict d) md
    = Ok (is_valid, errors) ->
    (is_valid = false ->
     append_event env (length (emitted s1))
       (validation_failed_event user errors d) = None) ->
    let out := _generate_response cfg env text user include md s in
    out = (Raise (KeyError md), validation_logged is_valid user errors d s1)
    /\ _mode_success_counts (snd out) = _mode_success_counts s
    /\ _mode_failure_counts (snd out) = _mode_failure_counts s
    /\ count_type "GenerationParametersUsedEvent"
         (emitted_since s (snd out)) = 0%nat.
Proof.
  intros text user include md s s1 msgs response d r is_valid errors
    Hjson Hlog Hmd Hdom_s Hdom_f Hctx Hcall Hloads Hresp Hval Hsink out.
  destruct (call_api_returns cfg env _ _ _ _ _ _ Hcall)
    as (p & _ & _ & Hem & _ & Hsucc & Hfail & _).
  assert (Hs : _mode_success_counts s1 !! md = None).
  { rewrite Hsucc. apply not_elem_of_dom. now rewrite Hdom_s. }
  assert (Hf : _mode_failure_counts s1 !! md = None).
  { rewrite Hfail. apply not_elem_of_dom. now rewrite Hdom_f. }
  assert (Hout : out = (Raise (KeyError md),
                        validation_logged is_valid user errors d s1)).
  { subst out. unfold _generate_response, bind, lift.
    rewrite Hctx, Hjson, Hcall.
    unfold try_except, first_attempt, bind, lift.
    destruct (extract_from_json_found env response user (VDict d) r Hloads
                Hresp) as [_ ->].
    unfold validate_and_count, bind, lift. rewrite Hlog, Hval.
    destruct is_valid; cbn [negb validation_logged].
    - unfold ret, increment. rewrite Hs. reflexivity.
    - unfold _log_validation_failure, _append_event.
      fold (validation_failed_event user errors d).
      rewrite (Hsink eq_refl). unfold increment.
      cbn [_mode_failure_counts set_event_log set_emitted]. rewrite Hf.
      reflexivity. }
  rewrite Hout. cbn [snd]. split; [reflexivity|].
  apply count_cache_metric_only in Hem as (l & Hl & _ & Hp).
  destruct is_valid; cbn [validation_logged].
  - split; [exact Hsucc|]. split; [exact Hfail|].
    now rewrite (emitted_since_app s s1 l Hl).
  - cbn zeta. split; [exact Hsucc|]. split; [exact Hfail|].
    rewrite (emitted_since_app s _
               (l ++ [validation_failed_event user errors d])).
    + rewrite count_type_app, Hp. reflexivity.
    + cbn [emitted set_event_log set_emitted]. rewrite Hl.
      now rewrite <- app_assoc.
Qed.

End UnknownMode.

Module DemoUnknownMode.

(** The provider answers [{"response": "hi there"}]. *)
Definition env : Env := Demo.env Demo.text_hi "plain" None.

(** The provider answers the well-formed [{"answer": "hi there"}]. *)
Definition env_no_field : Env := Demo.env Demo.text_no_response "plain" None.

Definition msgs : list chat_message :=
  [{| role := "system"; content := VStr "You are Chimera. Answer in JSON." |};
   {| role := "user"; content := VStr "hello" |}].

Definition s1 : State :=
  snd (_call_api Demo.cfg env msgs true "poet" (initialize true)).

End DemoUnknownMode.

(** The mode [poet] on a fresh actor: the request fails with [KeyError]. *)
Lemma unknown_mode_counter_update_raises_witness :
  ("poet" ∉ known_modes)
  /\ dict_get [("response", VStr "hi there")] "response"
     = Some (VStr "hi there")
  /\ fst (_generate_response Demo.cfg DemoUnknownMode.env (VStr "hello") "u1"
            true "poet" (initialize true))
     = Raise (KeyError "poet").
Proof.
  assert (Hmd : "poet" ∉ known_modes).
  { unfold known_modes. rewrite !elem_of_union, !elem_of_singleton.
    intros [[[H|H]|H]|H]; discriminate H. }
  split; [exact Hmd|]. split; [reflexivity|].
  destruct (unknown_mode_counter_update_raises Demo.cfg DemoUnknownMode.env
              (VStr "hello") "u1" true "poet" (initialize true)
              DemoUnknownMode.s1 DemoUnknownMode.msgs Demo.text_hi
              [("response", VStr "hi there")] (VStr "hi there") true [])
    as (Hout & _).
  - reflexivity.
  - reflexivity.
  - exact Hmd.
  - vm_compute; reflexivity.
  - vm_compute; reflexivity.
  - vm_compute; reflexivity.
  - vm_compute; reflexivity.
  - vm_compute; reflexivity.
  - reflexivity.
  - vm_compute; reflexivity.
  - discriminate.
  - rewrite Hout. reflexivity.
Defined.

(** C9 needs the [response] key: [{"answer": "hi there"}] parses as a
    dict, yet for the unregistered mode [poet] the request fails in the
    extractor with [ValueError], before any counter is updated. *)
Lemma unknown_mode_dict_without_response_field :
  (is_dict <$> returned (json_loads DemoUnknownMode.env_no_field
                           Demo.text_no_response))
    = Some true
  /\ JSON_VALIDATION_LOG_FAILURES Demo.cfg = true
  /\ use_json_mode (PROMPT_CONFIG Demo.cfg) = true
  /\ _mode_success_counts (initialize true) !! "poet" = None
  /\ fst (_generate_response Demo.cfg DemoUnknownMode.env_no_field
            (VStr "hello") "u1" true "poet" (initialize true))
     = Raise (ValueError "JSON doesn't contain 'response' field" None).
Proof. vm_compute. repeat split; reflexivity. Qed.

(** ** The keys of the per-mode counters never change *)

Section CounterKeys.

Variable cfg : Config.
Variable env : Env.

(** Both per-mode counters hold exactly the keys [__init__] gave them. *)
Definition counters_keyed (s : State) : Prop :=
  dom (_mode_success_counts s) = known_modes
  /\ dom (_mode_failure_counts s) = known_modes.

(** A coroutine that keeps [counters_keyed], however it ends. *)
Definition keeps_keys {A} (c : M A) : Prop :=
  forall s, counters_keyed s -> counters_keyed (snd (c s)).

(** A coroutine that leaves both counters alone. *)
Definition leaves_counters {A} (c : M A) : Prop :=
  forall s, _mode_success_counts (snd (c s)) = _mode_success_counts s
            /\ _mode_failure_counts (snd (c s)) = _mode_failure_counts s.

Lemma initialize_counters_keyed (registered : bool) :
  counters_keyed (initialize registered).
Proof.
  unfold counters_keyed, initialize, known_modes.
  cbn [_mode_success_counts _mode_failure_counts].
  rewrite !dom_insert_L, dom_empty_L. split; set_solver.
Qed.

Lemma leaves_counters_keeps_keys {A} (c : M A) :
  leaves_counters c -> keeps_keys c.
Proof.
  intros Hc s [Hs Hf]. destruct (Hc s) as [Hs' Hf'].
  unfold counters_keyed. now rewrite Hs', Hf'.
Qed.

Lemma keeps_keys_bind {A B} (c : M A) (k : A -> M B) :
  keeps_keys c -> (forall a, keeps_keys (k a)) -> keeps_keys (bind c k).
Proof.
  intros Hc Hk s Hs. specialize (Hc s Hs). unfold bind.
  destruct (c s) as [[a|e] s1]; cbn [snd] in *; [|exact Hc].
  now apply Hk.
Qed.

Lemma keeps_keys_try_except {A} (body : M A) (handler : exn -> M A) :
  keeps_keys body -> (forall e, keeps_keys (handler e)) ->
  keeps_keys (try_except body handler).
Proof.
  intros Hb Hh s Hs. specialize (Hb s Hs). unfold try_except.
  destruct (body s) as [[a|e] s1]; cbn [snd] in *; [exact Hb|].
  now apply Hh.
Qed.

Lemma keeps_keys_pure {A} (r : result A) : keeps_keys (lift r).
Proof. now intros ? ?. Qed.

Lemma keeps_keys_append_event (ev : BaseEvent) :
  keeps_keys (_append_event env ev).
Proof.
  apply leaves_counters_keeps_keys. intros s. unfold _append_event.
  destruct (append_event env _ _); now split.
Qed.

Lemma keeps_keys_call_api msgs use_json md :
  keeps_keys (_call_api cfg env msgs use_json md).
Proof.
  apply leaves_counters_keeps_keys. intros s.
  unfold _call_api, CircuitBreaker.call.
  set (s0 := set_breaker_calls (S (breaker_calls s)) s).
  destruct (CircuitBreaker.allow _ _) as [cb1|]; [|now split].
  assert (Hop : _mode_success_counts
                  (snd (api_call cfg env msgs use_json md s0))
                = _mode_success_counts s
                /\ _mode_failure_counts
                     (snd (api_call cfg env msgs use_json md s0))
                   = _mode_failure_counts s).
  { unfold api_call, bind, lift.
    destruct (mode_generation_params cfg md) as [mode_params|]; [|now split].
    destruct (create_completion env _ _) as [chunks|]; [|now split].
    destruct (fold_left consume_chunk chunks ("", 0, 0)) as [[full hit] miss].
    unfold bind.
    pose proof (log_cache_metrics_frame cfg env hit miss
                  (set_requests
                     (requests s0 ++ [api_kwargs cfg mode_params msgs use_json])
                     s0)) as [(_ & Hs & Hf & _) _].
    cbn zeta in Hs, Hf.
    destruct (_log_cache_metrics cfg env hit miss _) as [[[]|e] s2];
      cbn [snd] in *; now split. }
  destruct (api_call cfg env msgs use_json md s0) as [[a|e] w];
    cbn [snd] in *; exact Hop.
Qed.

Lemma keeps_keys_increment_success md :
  keeps_keys (increment _mode_success_counts set_mode_success_counts md).
Proof.
  intros s [Hs Hf]. unfold increment.
  destruct (_mode_success_counts s !! md) as [n|] eqn:Hmd; [|now split].
  split; [|exact Hf]. cbn [snd _mode_success_counts set_mode_success_counts].
  now rewrite dom_insert_lookup_L by (rewrite Hmd; eauto).
Qed.

Lemma keeps_keys_increment_failure md :
  keeps_keys (increment _mode_failure_counts set_mode_failure_counts md).
Proof.
  intros s [Hs Hf]. unfold increment.
  destruct (_mode_failure_counts s !! md) as [n|] eqn:Hmd; [|now split].
  split; [exact Hs|]. cbn [snd _mode_failure_counts set_mode_failure_counts].
  now rewrite dom_insert_lookup_L by (rewrite Hmd; eauto).
Qed.

Lemma keeps_keys_first_attempt user md use_json response :
  keeps_keys (first_attempt cfg env user md use_json response).
Proof.
  assert (Hlog : forall n, keeps_keys (log_parameters_used cfg env user md n)).
  { intros n. unfold log_parameters_used.
    destruct (log_config cfg _); [|now intros ? ?].
    apply keeps_keys_bind; [apply keeps_keys_pure|]. intros used_params.
    apply keeps_keys_bind; [apply keeps_keys_pure|]. intros len.
    apply keeps_keys_append_event. }
  unfold first_attempt. destruct use_json.
  - apply keeps_keys_bind; [apply keeps_keys_pure|]. intros full_data.
    apply keeps_keys_bind.
    + unfold validate_and_count.
      destruct full_data; try (now intros ? ?).
      destruct (JSON_VALIDATION_LOG_FAILURES cfg); [|now intros ? ?].
      apply keeps_keys_bind; [apply keeps_keys_pure|].
      intros [is_valid errors]. apply keeps_keys_bind.
      * destruct (negb is_valid); [apply keeps_keys_append_event|].
        now intros ? ?.
      * intros _. destruct is_valid;
          [apply keeps_keys_increment_success
          |apply keeps_keys_increment_failure].
    + intros _. apply keeps_keys_bind; [apply keeps_keys_pure|].
      intros response_text. apply keeps_keys_bind; [apply Hlog|].
      now intros _ ? ?.
  - apply keeps_keys_bind; [apply Hlog|]. now intros _ ? ?.
Qed.

Lemma keeps_keys_on_json_decode_error txt user include md use_json
    response e :
  keeps_keys
    (on_json_decode_error cfg env txt user include md use_json response e).
Proof.
  unfold on_json_decode_error.
  destruct (is_JSONDecodeError e); [|now intros ? ?].
  apply keeps_keys_bind; [now intros ? ?|]. intros _.
  apply keeps_keys_bind; [apply keeps_keys_append_event|]. intros _.
  destruct (_ && _).
  - apply keeps_keys_bind; [apply keeps_keys_pure|]. intros msgs.
    apply keeps_keys_bind; [apply keeps_keys_call_api|].
    now intros r ? ?.
  - destruct response; now intros ? ?.
Qed.

(** Every state a request can leave behind has the counters keyed as
    [__init__] keyed them: an unregistered mode stays unregistered. *)
Lemma generate_response_keeps_keys txt user include md :
  keeps_keys (_generate_response cfg env txt user include md).
Proof.
  unfold _generate_response.
  apply keeps_keys_bind; [apply keeps_keys_pure|]. intros msgs s Hs.
  pose proof (keeps_keys_call_api msgs (use_json_mode (PROMPT_CONFIG cfg))
                md s Hs) as Hcall.
  destruct (_call_api cfg env msgs _ md s) as [[response|e] s1];
    cbn [snd] in Hcall.
  - now apply keeps_keys_try_except;
      [apply keeps_keys_first_attempt
      |intros e; apply keeps_keys_on_json_decode_error|].
  - now apply keeps_keys_on_json_decode_error.
Qed.

End CounterKeys.

(** ** A failing event sink *)

Section Telemetry.

Variable cfg : Config.
Variable env : Env.

(** The number of events handed to the sink that it did not accept. *)
Definition rejected (s : State) : Z :=
  Z.of_nat (length (emitted s)) - Z.of_nat (length (event_log s)).

















(** The sink's own failures are no [JSONDecodeError]. *)
Hypothesis sink_raises_no_decode_error :
  forall n ev e, append_event env n ev = Some e ->
                 is_JSONDecodeError e = false.















(** [handle_message] on a complete [GENERATE_RESPONSE] command, by the
    outcome of [_generate_response]. *)
Lemma handle_message_generate (message : ActorMessage) uid cid txt s :
  message_type message = MessageType_value GENERATE_RESPONSE ->
  user_id (payload message) = Some uid ->
  chat_id (payload message) = Some cid ->
  text (payload message) = Some txt ->
  let incl := default true (include_prompt (payload message)) in
  let md := default "base" (mode (payload message)) in
  handle_message cfg env message s
  = match _generate_response cfg env txt uid incl md s with
    | (Ok response_text, s1) =>
        match slice_50 response_text with
        | Ok _ =>
            (Ok None,
             snd (send_message "telegram"
                    (bot_response uid cid response_text) s1))
        | Raise e =>
            (Ok None,
             snd (send_message "telegram" (error_msg uid cid e) s1))
        end
    | (Raise e, s1) =>
        (Ok None, snd (send_message "telegram" (error_msg uid cid e) s1))
    end.
Proof.
  intros Hty Hu Hc Ht incl md. unfold handle_message.
  rewrite bool_decide_eq_false_2 by (intros Hne; now apply Hne).
  rewrite Hu, Hc, Ht. unfold bind, lift, payload_getitem, try_except.
  fold incl md.
  destruct (_generate_response cfg env txt uid incl md s) as [[v|e] s1].
  - destruct (slice_50 v); unfold send_message, ret;
      destruct (actor_system s1); reflexivity.
  - unfold send_message, ret. destruct (actor_system s1); reflexivity.
Qed.


End Telemetry.

Module DemoTelemetry.

(** The provider answers [{"response": "hi there"}]; the sink accepts the
    cache metric (event 0) and fails on the next event. *)
Definition env : Env := Demo.env Demo.text_hi "plain" (Some 1%nat).

Definition request : ActorMessage :=
  {| sender_id := Some "user_session";
     message_type := MessageType_value GENERATE_RESPONSE;
     payload := {| user_id := Some "u1"; chat_id := Some (VInt 7);
                   text := Some (VStr "hello"); include_prompt := None;
                   mode := None; error := None; error_type := None |} |}.


End DemoTelemetry.




(** ** The scenarios of the spec, run on the model *)

Module Scenarios.

(** A provider that is down: every call raises. *)
Definition env_down : Env :=
  {| json_loads := Demo.loads;
     str_value := fun _ => "";
     parse_response := fun _ _ => None;
     create_completion := fun _ _ => Raise (Exception "connection refused");
     append_event := fun _ _ => None;
     monotonic := fun n => Z.of_nat n |}.

(** Run [_call_api] [n] times in a row, collecting the outcomes. *)
Fixpoint call_api_times (env : Env) (n : nat) (s : State)
    : list (result string) * State :=
  match n with
  | O => ([], s)
  | S n' =>
      let '(r, s1) := _call_api Demo.cfg env [] true "base" s in
      let '(rs, s2) := call_api_times env n' s1 in
      (r :: rs, s2)
  end.

(** Request [{mode: base, text: hello, includePrompt: true}], structured
    mode on, provider answer [{"response": "hi there"}]: the text returned
    is [hi there] and one [GenerationParametersUsedEvent] is emitted, for
    mode [base]. *)
Example structured_answer_is_extracted :
  let out := _generate_response Demo.cfg (Demo.env Demo.text_hi "" None)
               (VStr "hello") "u1" true "base" (initialize true) in
  fst out = Ok (VStr "hi there")
  /\ map (fun ev => dict_get (data ev) "mode")
       (filter (fun ev => event_type ev = "GenerationParametersUsedEvent")
          (emitted (snd out)))
     = [Some (VStr "base")]
  /\ _mode_success_counts (snd out) !! "base" = Some 1.
Proof. vm_compute. repeat split; reflexivity. Qed.

(** Threshold 3, three provider failures in a row: the fourth call, inside
    the recovery window, raises [BreakerOpenError] and the provider is
    not asked a fourth time. *)
Example fourth_call_is_refused :
  let out := call_api_times env_down 4 (initialize true) in
  fst out = [Raise (Exception "connection refused");
             Raise (Exception "connection refused");
             Raise (Exception "connection refused");
             Raise (BreakerOpenError "Circuit breaker is OPEN")]
  /\ length (requests (snd out)) = 3%nat
  /\ CircuitBreaker.state (_circuit_breaker (snd out)) = CircuitBreaker.Open.
Proof. vm_compute. repeat split; reflexivity. Qed.

(** A positive token total records the quotient; a zero total records
    nothing and leaves the accumulator alone. *)
Example cache_metrics_on_30_and_10 :
  let out := _log_cache_metrics Demo.cfg (Demo.env "" "" None) 30 10
               (initialize true) in
  map recorded_rate (emitted (snd out)) = [Some (VFloat (30 # 40))]
  /\ _generation_count (snd out) = 1.
Proof. vm_compute. split; reflexivity. Qed.

Example cache_metrics_on_zero_total :
  _log_cache_metrics Demo.cfg (Demo.env "" "" None) 0 0 (initialize true)
  = (Ok tt, set_generation_count 1 (initialize true)).
Proof. vm_compute. reflexivity. Qed.

(** With a negative bound the Python slice counts from the end of the list,
    which is why the truncation theorem asks for a cap that is not negative. *)
Example slice_with_negative_bound :
  slice_to ["a"; "b"; "c"] (-1) = ["a"; "b"].
Proof. reflexivity. Qed.

End Scenarios.

(** * Further properties of the actor *)

(** ** Composing the messages *)

Section Composition.

Variable cfg : Config.

Lemma string_app_nil_r (a : string) : a +:+ "" = a.
Proof.
  induction a as [|c a IH]; [reflexivity|].
  change (String c (a +:+ "") = String c a). now rewrite IH.
Qed.

Lemma string_app_assoc (a b c : string) : (a +:+ b) +:+ c = a +:+ (b +:+ c).
Proof.
  induction a as [|x a IH]; [reflexivity|].
  change (String x ((a +:+ b) +:+ c) = String x (a +:+ (b +:+ c))).
  now rewrite IH.
Qed.

Lemma prefix_app (a b : string) : String.prefix a (a +:+ b) = true.
Proof.
  induction a as [|c a IH]; [now destruct b|].
  change (String.prefix (String c a) (String c (a +:+ b)) = true).
  cbn [String.prefix].
  destruct (ascii_dec c c) as [_|Hne]; [exact IH | now destruct Hne].
Qed.

(** X1. [_format_context] without a system prompt cannot fail and yields
    the user message alone; with one it yields, when the base prompt of the
    phase is configured, exactly a system message followed by the user
    message, and raises when it is not.  In every case where it returns,
    the list ends with the user message carrying the text as given. *)
Theorem format_context_shape :
  forall (txt : value) (include force : bool) (md : string),
    let user_message := {| role := "user"; content := txt |} in
    let key := prompt_key (use_json_mode (PROMPT_CONFIG cfg) && negb force) in
    _format_context cfg txt false force md = Ok [user_message]
    /\ (forall base_prompts base_prompt,
          PROMPTS cfg !! "base" = Some base_prompts ->
          base_prompts !! key = Some base_prompt ->
          exists system_prompt,
            _format_context cfg txt true force md
            = Ok [{| role := "system"; content := VStr system_prompt |};
                  user_message])
    /\ (PROMPTS cfg !! "base" ≫= (fun base_prompts => base_prompts !! key)
        = None ->
        is_Ok (_format_context cfg txt true force md) = false)
    /\ (forall msgs,
          _format_context cfg txt include force md = Ok msgs ->
          last msgs = Some user_message
          /\ (include = false -> msgs = [user_message])
          /\ (include = true ->
              exists system_prompt,
                msgs = [{| role := "system"; content := VStr system_prompt |};
                        user_message])).
Proof.
  intros txt include force md user_message key.
  split; [reflexivity|]. split; [|split].
  - intros base_prompts base_prompt Hbase Hkey.
    unfold _format_context, getitem. rewrite Hbase.
    fold (prompt_key (use_json_mode (PROMPT_CONFIG cfg) && negb force)).
    fold key. rewrite Hkey. eexists. reflexivity.
  - intros Hnone. unfold _format_context, getitem.
    fold (prompt_key (use_json_mode (PROMPT_CONFIG cfg) && negb force)).
    fold key.
    destruct (PROMPTS cfg !! "base") as [base_prompts|]; [|reflexivity].
    cbn in Hnone. now rewrite Hnone.
  - intros msgs H. unfold _format_context in H.
    destruct include.
    + destruct (getitem (PROMPTS cfg) "base") as [bp|]; [|discriminate].
      destruct (getitem bp _) as [b|]; [|discriminate].
      injection H as <-. split; [reflexivity|]. split; [discriminate|].
      intros _. eexists. reflexivity.
    + injection H as <-. split; [reflexivity|]. split; [reflexivity|].
      discriminate.
Qed.

(** X3. Whatever the mode and the phase, the prompt [_build_mode_prompt]
    returns starts with the base prompt it was given, and for the mode
    [base] it is that prompt, even when [PROMPTS] registers modifiers and
    schema instructions under [base]. *)
Theorem build_mode_prompt_keeps_base :
  forall (base_prompt md : string) (use_json : bool),
    String.prefix base_prompt (_build_mode_prompt cfg base_prompt md use_json)
    = true
    /\ _build_mode_prompt cfg base_prompt "base" use_json = base_prompt.
Proof.
  intros base_prompt md use_json. split; [|reflexivity].
  unfold _build_mode_prompt.
  assert (Hself : String.prefix base_prompt base_prompt = true)
    by (rewrite <- (string_app_nil_r base_prompt) at 2; apply prefix_app).
  destruct (decide (md = "base")); [exact Hself|].
  destruct (PROMPTS cfg !! md) as [mp|]; [|exact Hself]. cbn zeta.
  destruct (_ || _); [exact Hself|].
  destruct use_json; [destruct (JSON_SCHEMA_INSTRUCTIONS cfg !! md)|];
    rewrite ?string_app_assoc; apply prefix_app.
Qed.

End Composition.

(** X2. The messages of the fallback phase ([force_normal]) depend on
    [PROMPTS] alone: neither the structured-mode switch nor any schema
    instruction reaches them. *)
Theorem fallback_messages_ignore_json_settings :
  forall (cfg cfg' : Config) (txt : value) (include : bool) (md : string),
    PROMPTS cfg = PROMPTS cfg' ->
    _format_context cfg txt include true md
    = _format_context cfg' txt include true md.
Proof.
  intros cfg cfg' txt include md HP. unfold _format_context.
  destruct include; [|reflexivity].
  rewrite !andb_false_r, <- HP.
  destruct (getitem (PROMPTS cfg) "base") as [bp|]; [|reflexivity].
  destruct (getitem bp "normal") as [b|]; [|reflexivity].
  unfold _build_mode_prompt. now rewrite <- HP.
Qed.

(** The demo configuration against its variant without fallback, whose
    structured-mode settings differ. *)
Lemma fallback_messages_ignore_json_settings_witness :
  PROMPTS Demo.cfg = PROMPTS DemoMissingField.cfg_no_fallback
  /\ _format_context Demo.cfg (VStr "hello") true true "expert"
     = _format_context DemoMissingField.cfg_no_fallback (VStr "hello") true
         true "expert".
Proof.
  split; [reflexivity|].
  apply (fallback_messages_ignore_json_settings Demo.cfg
           DemoMissingField.cfg_no_fallback).
  reflexivity.
Defined.

(** ** Draining the provider's stream *)

Section Streaming.

Variable cfg : Config.
Variable env : Env.

(** The text a stream carries: its [delta.content] pieces, in order. *)
Fixpoint stream_text (chunks : list chunk) : string :=
  match chunks with
  | [] => ""
  | c :: rest => default "" (delta_content c) +:+ stream_text rest
  end.

(** The usage record of the last chunk that carries one. *)
Fixpoint last_usage (chunks : list chunk) : option usage :=
  match chunks with
  | [] => None
  | c :: rest =>
      match last_usage rest with
      | Some u => Some u
      | None => chunk_usage c
      end
  end.

Lemma consume_chunks_from (chunks : list chunk) :
  forall (acc : string) (hit miss : Z),
    fold_left consume_chunk chunks (acc, hit, miss)
    = (acc +:+ stream_text chunks,
       match last_usage chunks with
       | Some u => default 0 (prompt_cache_hit_tokens u)
       | None => hit
       end,
       match last_usage chunks with
       | Some u => default 0 (prompt_cache_miss_tokens u)
       | None => miss
       end).
Proof.
  induction chunks as [|c rest IH]; intros acc hit miss.
  - cbn. now rewrite string_app_nil_r.
  - cbn [fold_left stream_text last_usage]. unfold consume_chunk at 2.
    destruct (delta_content c) as [piece|]; cbn [default from_option id].
    + destruct (chunk_usage c) as [u|]; rewrite IH;
        (case_bool_decide as Hp;
         [subst piece; change ("" +:+ stream_text rest) with (stream_text rest)
         |rewrite string_app_assoc]);
        destruct (last_usage rest); reflexivity.
    + change ("" +:+ stream_text rest) with (stream_text rest).
      destruct (chunk_usage c) as [u|]; rewrite IH;
        destruct (last_usage rest); reflexivity.
Qed.

(** X4. The loop of [api_call] rebuilds the answer as the concatenation of
    the chunks' [delta.content] in arrival order (a chunk without content
    adds nothing), and its token counts are those of the last chunk that
    carries [usage], an absent attribute reading as 0; earlier usage records
    are overwritten, never summed.  Without any usage record both counts
    are 0.  The text [api_call] returns is that concatenation. *)
Theorem stream_is_concatenated_and_last_usage_wins :
  forall (chunks : list chunk),
    fold_left consume_chunk chunks ("", 0, 0)
    = (stream_text chunks,
       from_option (fun u => default 0 (prompt_cache_hit_tokens u)) 0
         (last_usage chunks),
       from_option (fun u => default 0 (prompt_cache_miss_tokens u)) 0
         (last_usage chunks))
    /\ (forall more, stream_text (chunks ++ more)
                     = stream_text chunks +:+ stream_text more)
    /\ (forall c u, chunk_usage c = Some u ->
                    last_usage (chunks ++ [c]) = Some u)
    /\ (forall msgs use_json md s response s',
          api_call cfg env msgs use_json md s = (Ok response, s') ->
          exists mode_params answer,
            create_completion env (length (requests s))
              (api_kwargs cfg mode_params msgs use_json) = Ok answer
            /\ response = stream_text answer).
Proof.
  intros chunks. split; [|split; [|split]].
  - rewrite consume_chunks_from. destruct (last_usage chunks); reflexivity.
  - intros more. induction chunks as [|c rest IH]; [reflexivity|].
    cbn [app stream_text]. now rewrite IH, string_app_assoc.
  - intros c u Hu. induction chunks as [|c0 rest IH].
    + cbn. now rewrite Hu.
    + cbn [app last_usage]. now rewrite IH.
  - intros msgs use_json md s response s' H.
    unfold api_call, bind, lift in H.
    destruct (mode_generation_params cfg md) as [mode_params|]; [|discriminate].
    destruct (create_completion env _ _) as [answer|] eqn:Hc; [|discriminate].
    exists mode_params, answer. split; [exact Hc|].
    rewrite consume_chunks_from in H. unfold bind in H.
    destruct (_log_cache_metrics _ _ _ _ _) as [[[]|e] s2]; [|discriminate].
    unfold ret in H. now injection H as <- _.
Qed.

(** X5. A mode without an entry in [MODE_GENERATION_PARAMS] is served with
    the parameters of [base]: [_call_api] behaves for it exactly as for
    [base].  When the [base] entry itself is missing, [api_call] raises
    [KeyError] for [base] before the provider is asked, whatever the
    mode. *)
Theorem unregistered_mode_uses_base_parameters :
  forall (msgs : list chat_message) (use_json : bool) (md : string)
         (s : State),
    (MODE_GENERATION_PARAMS cfg !! md = None ->
     _call_api cfg env msgs use_json md s
     = _call_api cfg env msgs use_json "base" s)
    /\ (MODE_GENERATION_PARAMS cfg !! "base" = None ->
        api_call cfg env msgs use_json md s = (Raise (KeyError "base"), s)).
Proof.
  intros msgs use_json md s. split.
  - intros Hnone.
    assert (Hp : mode_generation_params cfg md
                 = mode_generation_params cfg "base").
    { unfold mode_generation_params, getitem. rewrite Hnone.
      destruct (MODE_GENERATION_PARAMS cfg !! "base"); reflexivity. }
    unfold _call_api, api_call. now rewrite Hp.
  - intros Hnone. unfold api_call, bind, lift, mode_generation_params, getitem.
    now rewrite Hnone.
Qed.

End Streaming.

(** ** Extraction and validation *)

(** X6. The outcome of [_extract_from_json] is decided by [json.loads]
    alone: the trial validation it runs on the full dict never changes it
    (two environments that parse alike extract alike, whatever their
    [parse_response] does), the user id plays no part, and an exception of
    [json.loads] is raised again unchanged. *)
Theorem extraction_ignores_trial_validation :
  forall (env env' : Env) (response user user' : string) (full : bool),
    json_loads env response = json_loads env' response ->
    _extract_from_json env response user full
    = _extract_from_json env' response user' full
    /\ (forall e, json_loads env response = Raise e ->
                  _extract_from_json env response user full = Raise e).
Proof.
  intros env env' response user user' full Hsame.
  unfold _extract_from_json. rewrite <- Hsame.
  destruct (json_loads env response) as [data|e0].
  - split; [|discriminate]. unfold swallow. now destruct full.
  - split; [reflexivity|]. intros e He. exact He.
Qed.

(** The validating demo environment parses like the plain one. *)
Lemma extraction_ignores_trial_validation_witness :
  _extract_from_json (Demo.env "" "" None) Demo.text_hi "u1" true
  = _extract_from_json DemoValidation.env Demo.text_hi "u2" true.
Proof.
  apply (extraction_ignores_trial_validation (Demo.env "" "" None)
           DemoValidation.env Demo.text_hi "u1" "u2" true).
  reflexivity.
Defined.

Section ValidatorEdges.

Variable cfg : Config.
Variable env : Env.

Lemma limit_errors_length (errors : list string) :
  0 <= max_validation_errors cfg ->
  Z.of_nat (length (limit_errors cfg errors))
  <= Z.min (Z.of_nat (length errors)) (max_validation_errors cfg + 1).
Proof.
  intros Hcap. rewrite limit_errors_spec by assumption.
  destruct (Z.ltb_spec (max_validation_errors cfg) (Z.of_nat (length errors))).
  - rewrite length_app, length_take. cbn [length]. lia.
  - lia.
Qed.

(** X7. [_validate_structured_response] never raises for a [ValueError],
    a [ValidationError] or a [JSONDecodeError] of [parse_response]: it
    raises exactly when validation is enabled and [parse_response] raises an
    exception outside that family, and then it raises that exception.  With
    validation disabled the verdict is [(True, [])] whatever
    [parse_response] would do, and a positive verdict always comes with an
    empty error list. *)
Theorem validator_raises_only_foreign_exceptions :
  forall (response_dict : value) (md : string),
    (forall e,
       _validate_structured_response cfg env response_dict md = Raise e <->
       JSON_VALIDATION_ENABLED cfg = true
       /\ parse_response env response_dict md = Some e
       /\ is_ValueError e = false)
    /\ (JSON_VALIDATION_ENABLED cfg = false ->
        _validate_structured_response cfg env response_dict md
        = Ok (true, []))
    /\ (forall errors,
          _validate_structured_response cfg env response_dict md
          = Ok (true, errors) -> errors = []).
Proof.
  intros response_dict md. unfold _validate_structured_response.
  destruct (JSON_VALIDATION_ENABLED cfg); cbn [negb].
  - destruct (parse_response env response_dict md) as [e0|].
    + split; [|split; [discriminate|]].
      * intros e. split.
        -- intros H. split; [reflexivity|].
           destruct e0 as [m|errs t|m [c|]| | | | | |];
             try (destruct c); try discriminate H;
             injection H as <-; split; reflexivity.
        -- intros (_ & Hp & Hv). injection Hp as ->.
           destruct e as [m|errs t|m c| | | | | |]; try discriminate Hv;
             reflexivity.
      * intros errors H.
        destruct e0 as [m|errs t|m [c|]| | | | | |];
          try (destruct c); discriminate H.
    + split; [|split; [discriminate|]].
      * intros e. split; [discriminate|]. intros (_ & H & _). discriminate H.
      * intros errors H. now injection H as <-.
  - split; [|split; [reflexivity|]].
    + intros e. split; [discriminate|]. intros (H & _). discriminate H.
    + intros errors H. now injection H as <-.
Qed.

(** X8. With a cap that is not negative, the error list of a negative
    verdict is never longer than the list [parse_response] reported and
    never longer than the cap plus the one summary entry. *)
Theorem validation_errors_bounded :
  forall (response_dict : value) (md : string) (e : exn)
         (raw errors : list string),
    0 <= max_validation_errors cfg ->
    parse_response env response_dict md = Some e ->
    collected_errors e = Some raw ->
    _validate_structured_response cfg env response_dict md
    = Ok (false, errors) ->
    (length errors <= length raw)%nat
    /\ Z.of_nat (length errors) <= max_validation_errors cfg + 1.
Proof.
  intros response_dict md e raw errors Hcap Hparse Hraw Hrun.
  assert (Hen : JSON_VALIDATION_ENABLED cfg = true).
  { unfold _validate_structured_response in Hrun.
    destruct (JSON_VALIDATION_ENABLED cfg); [reflexivity | discriminate]. }
  rewrite (validate_failure cfg env response_dict md e raw Hen Hparse Hraw)
    in Hrun.
  injection Hrun as <-.
  pose proof (limit_errors_length raw Hcap). lia.
Qed.

End ValidatorEdges.

(** Three reported errors against the demo cap of 2. *)
Lemma validation_errors_bounded_witness :
  (length ["sources.0: Input should be a valid string";
           "confidence: Field required";
           "... and 1 more errors"]
   <= length (format_errors DemoValidation.three_errors))%nat.
Proof.
  apply (validation_errors_bounded Demo.cfg DemoValidation.env
           (VDict [("response", VStr "hi there")]) "expert"
           (ValidationError DemoValidation.three_errors "3 validation errors")
           (format_errors DemoValidation.three_errors)
           ["sources.0: Input should be a valid string";
            "confidence: Field required";
            "... and 1 more errors"]).
  - vm_compute. discriminate.
  - reflexivity.
  - reflexivity.
  - vm_compute. reflexivity.
Defined.

(** ** The cache-hit accumulator *)

Section CacheRate.

Variable cfg : Config.
Variable env : Env.

Lemma rate_in_unit_interval (hit_tokens miss_tokens : Z) :
  0 <= hit_tokens -> 0 <= miss_tokens -> 0 < hit_tokens + miss_tokens ->
  (0 <= inject_Z hit_tokens / inject_Z (hit_tokens + miss_tokens))%Q
  /\ (inject_Z hit_tokens / inject_Z (hit_tokens + miss_tokens) <= 1)%Q.
Proof.
  intros Hh Hm Hpos.
  rewrite (rate_is_quotient hit_tokens (hit_tokens + miss_tokens) Hpos).
  unfold Qle. cbn [Qnum Qden]. rewrite Z2Pos.id by lia. lia.
Qed.

(** The accumulator is a sum of rates, one per counted generation at
    most. *)
Definition accumulator_in_range (s : State) : Prop :=
  (0 <= _total_cache_hits s)%Q
  /\ (_total_cache_hits s <= inject_Z (_generation_count s))%Q.

Lemma log_cache_metrics_accumulates hit_tokens miss_tokens s :
  let s' := snd (_log_cache_metrics cfg env hit_tokens miss_tokens s) in
  _total_cache_hits s' = _total_cache_hits s
  \/ (0 < hit_tokens + miss_tokens
      /\ _total_cache_hits s'
         = (_total_cache_hits s
            + inject_Z hit_tokens / inject_Z (hit_tokens + miss_tokens))%Q).
Proof.
  unfold _log_cache_metrics, bind, modify, ret, log_periodically,
    _append_event.
  destruct (Z.ltb_spec 0 (hit_tokens + miss_tokens)); [|left; reflexivity].
  cbn. destruct (CACHE_HIT_LOG_INTERVAL cfg =? 0); [right; now split|].
  destruct (_ mod _ =? 0); [destruct (_ =? 0); [right; now split|]|];
    destruct (append_event env _ _); right; now split.
Qed.

(** X9. For token counts that are not negative, every cache metric
    [_log_cache_metrics] emits records a rate between 0 and 1, and the call
    keeps the accumulator between 0 and the number of generations counted:
    the average it logs is itself a rate. *)
Theorem cache_hit_rate_is_a_rate :
  forall (hit_tokens miss_tokens : Z) (s : State),
    0 <= hit_tokens -> 0 <= miss_tokens ->
    let s' := snd (_log_cache_metrics cfg env hit_tokens miss_tokens s) in
    (forall ev, ev ∈ emitted_since s s' ->
       exists q, recorded_rate ev = Some (VFloat q)
                 /\ (0 <= q)%Q /\ (q <= 1)%Q)
    /\ (accumulator_in_range s -> accumulator_in_range s').
Proof.
  intros hit_tokens miss_tokens s Hh Hm s'. split.
  - intros ev Hev.
    destruct (log_cache_metrics_emits cfg env hit_tokens miss_tokens s)
      as [Hsame|Hone]; fold s' in Hsame || fold s' in Hone.
    + rewrite (emitted_since_app s s' []) in Hev
        by (now rewrite app_nil_r).
      now apply elem_of_nil in Hev.
    + rewrite (emitted_since_app s s' _ Hone) in Hev.
      apply list_elem_of_singleton in Hev as ->.
      eexists. split; [reflexivity|].
      destruct (Z_lt_le_dec 0 (hit_tokens + miss_tokens)) as [Hpos|Hle].
      * now apply rate_in_unit_interval.
      * exfalso. subst s'.
        rewrite (log_cache_metrics_no_tokens cfg env _ _ s Hle) in Hone.
        cbn [snd emitted set_generation_count] in Hone.
        apply (f_equal length) in Hone. rewrite length_app in Hone.
        cbn [length] in Hone. lia.
  - intros [Hlo Hhi]. unfold accumulator_in_range. subst s'.
    rewrite log_cache_metrics_counts.
    assert (Hstep : (inject_Z (_generation_count s) + 1
                     == inject_Z (_generation_count s + 1))%Q)
      by (rewrite inject_Z_plus; reflexivity).
    destruct (log_cache_metrics_accumulates hit_tokens miss_tokens s)
      as [->|[Hpos ->]].
    + split; [exact Hlo|]. rewrite <- Hstep.
      rewrite <- (Qplus_0_r (_total_cache_hits s)).
      apply Qplus_le_compat; [exact Hhi | discriminate].
    + destruct (rate_in_unit_interval hit_tokens miss_tokens Hh Hm Hpos)
        as [H0 H1].
      split.
      * rewrite <- (Qplus_0_r 0). now apply Qplus_le_compat.
      * rewrite <- Hstep. now apply Qplus_le_compat.
Qed.

End CacheRate.

(** 30 cached tokens out of 40, on a fresh actor. *)
Lemma cache_hit_rate_is_a_rate_witness :
  accumulator_in_range (initialize true)
  /\ accumulator_in_range
       (snd (_log_cache_metrics Demo.cfg (Demo.env "" "" None) 30 10
               (initialize true))).
Proof.
  assert (H : accumulator_in_range (initialize true))
    by (split; discriminate).
  split; [exact H|].
  apply (cache_hit_rate_is_a_rate Demo.cfg (Demo.env "" "" None) 30 10
           (initialize true)); [lia | lia | exact H].
Defined.

(** ** Message types ([actors/messages.py]) *)

(** [MESSAGE_TYPES] *)
Definition MESSAGE_TYPES : list (string * MessageType) :=
  [("PING", PING); ("PONG", PONG); ("ERROR", ERROR); ("SHUTDOWN", SHUTDOWN);
   ("DLQ_QUEUED", DLQ_QUEUED); ("DLQ_PROCESSED", DLQ_PROCESSED);
   ("DLQ_CLEANUP", DLQ_CLEANUP); ("USER_MESSAGE", USER_MESSAGE);
   ("GENERATE_RESPONSE", GENERATE_RESPONSE); ("BOT_RESPONSE", BOT_RESPONSE);
   ("STREAMING_CHUNK", STREAMING_CHUNK);
   ("SESSION_CREATED", SESSION_CREATED);
   ("SESSION_UPDATED", SESSION_UPDATED);
   ("CACHE_HIT_METRIC", CACHE_HIT_METRIC);
   ("PROMPT_INCLUSION", PROMPT_INCLUSION);
   ("JSON_MODE_FAILURE", JSON_MODE_FAILURE);
   ("TELEGRAM_MESSAGE_RECEIVED", TELEGRAM_MESSAGE_RECEIVED);
   ("PROCESS_USER_MESSAGE", PROCESS_USER_MESSAGE);
   ("SEND_TELEGRAM_RESPONSE", SEND_TELEGRAM_RESPONSE);
   ("JSON_VALIDATION_FAILED", JSON_VALIDATION_FAILED);
   ("STRUCTURED_RESPONSE_GENERATED", STRUCTURED_RESPONSE_GENERATED);
   ("MODE_DETECTED", MODE_DETECTED); ("MODE_FALLBACK", MODE_FALLBACK);
   ("GENERATION_PARAMETERS_USED", GENERATION_PARAMETERS_USED);
   ("PYDANTIC_VALIDATION_SUCCESS", PYDANTIC_VALIDATION_SUCCESS);
   ("PATTERN_DEBUG", PATTERN_DEBUG)].

(** [c.upper()] for one ASCII character. *)
Definition upper_ascii (c : ascii) : ascii :=
  let n := nat_of_ascii c in
  if (97 <=? n)%nat && (n <=? 122)%nat then ascii_of_nat (n - 32) else c.

(** [s.upper()] *)
Fixpoint upper (s : string) : string :=
  match s with
  | EmptyString => EmptyString
  | String c s' => String (upper_ascii c) (upper s')
  end.

Lemma dict_get_In {A} (d : list (string * A)) (k : string) (v : A) :
  dict_get d k = Some v -> In (k, v) d.
Proof.
  induction d as [|[k' v'] d IH]; cbn; [discriminate|].
  destruct (decide (k' = k)) as [->|_].
  - intros H. injection H as ->. now left.
  - intros H. right. now apply IH.
Qed.

(** X10. [MESSAGE_TYPES] and the enumeration agree: looking up the
    upper-cased wire value of a member yields that member, every key of the
    table is the upper-cased wire value of the member it holds, and no two
    members share a wire value, so a [message_type] string names at most one
    member. *)
Theorem message_types_table_is_consistent :
  (forall t, dict_get MESSAGE_TYPES (upper (MessageType_value t)) = Some t)
  /\ (forall k t, dict_get MESSAGE_TYPES k = Some t ->
                  k = upper (MessageType_value t))
  /\ (forall t t', MessageType_value t = MessageType_value t' -> t = t').
Proof.
  split; [|split].
  - intros t. destruct t; vm_compute; reflexivity.
  - intros k t H. apply dict_get_In in H. cbn [MESSAGE_TYPES In] in H.
    repeat (destruct H as [H|H]; [injection H as <- <-; reflexivity|]).
    destruct H.
  - intros t t' H. destruct t; destruct t'; try reflexivity;
      vm_compute in H; discriminate H.
Qed.

(** ** Relations every step of a request respects *)

Section Steps.

Variable cfg : Config.
Variable env : Env.

(** A relation between the state before and the state after, closed under
    sequencing. *)
Context (R : relation State) `{!PreOrder R}.

(** A coroutine all of whose runs, returning or raising, are in [R]. *)
Definition keeps {A} (c : M A) : Prop := forall s, R s (snd (c s)).

Lemma keeps_still {A} (r : result A) : keeps (lift r).
Proof. intros s. reflexivity. Qed.

Lemma keeps_bind {A B} (c : M A) (k : A -> M B) :
  keeps c -> (forall a, keeps (k a)) -> keeps (bind c k).
Proof.
  intros Hc Hk s. specialize (Hc s). unfold bind.
  destruct (c s) as [[a|e] s1]; cbn [snd] in *; [|exact Hc].
  etransitivity; [exact Hc | apply Hk].
Qed.

Lemma keeps_try_except {A} (body : M A) (handler : exn -> M A) :
  keeps body -> (forall e, keeps (handler e)) ->
  keeps (try_except body handler).
Proof.
  intros Hb Hh s. specialize (Hb s). unfold try_except.
  destruct (body s) as [[a|e] s1]; cbn [snd] in *; [exact Hb|].
  etransitivity; [exact Hb | apply Hh].
Qed.

(** The events a request of [user] may hand to the sink, and what each
    assignment the actor makes does to [R]. *)
Variable user : string.
Variable allowed : BaseEvent -> Prop.

Hypothesis allowed_cache : forall h m q, allowed (cache_hit_metric_event h m q).
Hypothesis allowed_failure :
  forall err, allowed (json_mode_failure_event user err).
Hypothesis allowed_validation :
  forall errors d, allowed (validation_failed_event user errors d).
Hypothesis allowed_parameters :
  forall md p n, allowed (parameters_used_event user md p n).

Hypothesis R_emit : forall ev s,
  allowed ev -> R s (set_emitted (emitted s ++ [ev]) s).
Hypothesis R_accept : forall ev s,
  allowed ev ->
  R s (set_event_log (event_log s ++ [ev])
         (set_emitted (emitted s ++ [ev]) s)).
Hypothesis R_count : forall s,
  R s (set_generation_count (_generation_count s + 1) s).
Hypothesis R_hits : forall q s,
  R s (set_total_cache_hits (_total_cache_hits s + q)%Q s).
Hypothesis R_json : forall s,
  R s (set_json_failures (_json_failures s + 1) s).
Hypothesis R_request : forall kw s, R s (set_requests (requests s ++ [kw]) s).
Hypothesis R_breaker_calls : forall s,
  R s (set_breaker_calls (S (breaker_calls s)) s).
Hypothesis R_breaker : forall cb s, R s (set_circuit_breaker cb s).
Hypothesis R_success : forall md n s,
  _mode_success_counts s !! md = Some n ->
  R s (set_mode_success_counts (<[md := n + 1]> (_mode_success_counts s)) s).
Hypothesis R_failure : forall md n s,
  _mode_failure_counts s !! md = Some n ->
  R s (set_mode_failure_counts (<[md := n + 1]> (_mode_failure_counts s)) s).

Lemma keeps_append_event (ev : BaseEvent) :
  allowed ev -> keeps (_append_event env ev).
Proof.
  intros Hev s. unfold _append_event.
  destruct (append_event env _ _); cbn [snd];
    [exact (R_emit ev s Hev) | exact (R_accept ev s Hev)].
Qed.

Lemma keeps_log_cache_metrics hit_tokens miss_tokens :
  keeps (_log_cache_metrics cfg env hit_tokens miss_tokens).
Proof.
  unfold _log_cache_metrics.
  apply keeps_bind; [intros s; apply R_count|]. intros _.
  destruct (0 <? _); [|intros s; reflexivity].
  apply keeps_bind; [intros s; apply R_hits|]. intros _.
  apply keeps_bind.
  - intros s. unfold log_periodically.
    destruct (_ =? 0); [reflexivity|].
    destruct (_ mod _ =? 0); [destruct (_ =? 0)|]; reflexivity.
  - intros _. apply keeps_append_event, allowed_cache.
Qed.

Lemma keeps_api_call msgs use_json md :
  keeps (api_call cfg env msgs use_json md).
Proof.
  unfold api_call.
  apply keeps_bind; [apply keeps_still|]. intros mode_params.
  apply keeps_bind; [intros s; apply R_request|]. intros chunks.
  destruct (fold_left consume_chunk chunks ("", 0, 0)) as [[full hit] miss].
  apply keeps_bind; [apply keeps_log_cache_metrics|].
  intros _ s. reflexivity.
Qed.

Lemma keeps_call_api msgs use_json md :
  keeps (_call_api cfg env msgs use_json md).
Proof.
  intros s. unfold _call_api, CircuitBreaker.call.
  set (s0 := set_breaker_calls (S (breaker_calls s)) s).
  assert (H0 : R s s0) by apply R_breaker_calls.
  destruct (CircuitBreaker.allow _ _) as [cb1|].
  - pose proof (keeps_api_call msgs use_json md s0) as Hop.
    destruct (api_call cfg env msgs use_json md s0) as [[a|e] w];
      cbn [snd] in *;
      (etransitivity; [exact H0|]; etransitivity; [exact Hop|];
       apply R_breaker).
  - cbn [snd]. etransitivity; [exact H0 | apply R_breaker].
Qed.

Lemma keeps_log_parameters_used md n :
  keeps (log_parameters_used cfg env user md n).
Proof.
  unfold log_parameters_used.
  destruct (log_config cfg _); [|intros s; reflexivity].
  apply keeps_bind; [apply keeps_still|]. intros used_params.
  apply keeps_bind; [apply keeps_still|]. intros len.
  apply keeps_append_event, allowed_parameters.
Qed.

Lemma keeps_validate_and_count md full_data :
  keeps (validate_and_count cfg env user md full_data).
Proof.
  unfold validate_and_count.
  destruct full_data as [| | | | |l|d]; try (intros s0; reflexivity).
  destruct (JSON_VALIDATION_LOG_FAILURES cfg); [|intros s0; reflexivity].
  apply keeps_bind; [apply keeps_still|]. intros [is_valid errors].
  apply keeps_bind.
  - destruct (negb is_valid); [|intros s0; reflexivity].
    apply keeps_append_event, allowed_validation.
  - intros _ s0. unfold increment. destruct is_valid.
    + destruct (_mode_success_counts s0 !! md) eqn:Hmd; cbn [snd];
        [now apply R_success | reflexivity].
    + destruct (_mode_failure_counts s0 !! md) eqn:Hmd; cbn [snd];
        [now apply R_failure | reflexivity].
Qed.

Lemma keeps_first_attempt md use_json response :
  keeps (first_attempt cfg env user md use_json response).
Proof.
  unfold first_attempt. destruct use_json.
  - apply keeps_bind; [apply keeps_still|]. intros full_data.
    apply keeps_bind; [apply keeps_validate_and_count|]. intros _.
    apply keeps_bind; [apply keeps_still|]. intros response_text.
    apply keeps_bind; [apply keeps_log_parameters_used|].
    intros _ s0. reflexivity.
  - apply keeps_bind; [apply keeps_log_parameters_used|].
    intros _ s0. reflexivity.
Qed.

Lemma keeps_on_json_decode_error txt include md use_json response e :
  keeps (on_json_decode_error cfg env txt user include md use_json response e).
Proof.
  unfold on_json_decode_error.
  destruct (is_JSONDecodeError e); [|intros s0; reflexivity].
  apply keeps_bind; [intros s0; apply R_json|]. intros _.
  apply keeps_bind; [apply keeps_append_event, allowed_failure|]. intros _.
  destruct (_ && _).
  - apply keeps_bind; [apply keeps_still|]. intros msgs.
    apply keeps_bind; [apply keeps_call_api|]. intros r s0. reflexivity.
  - destruct response; intros s0; reflexivity.
Qed.

Lemma keeps_generate_response txt include md :
  keeps (_generate_response cfg env txt user include md).
Proof.
  unfold _generate_response.
  apply keeps_bind; [apply keeps_still|]. intros msgs s.
  pose proof (keeps_call_api msgs (use_json_mode (PROMPT_CONFIG cfg)) md s)
    as Hcall.
  destruct (_call_api cfg env msgs _ md s) as [[response|e] s1];
    cbn [snd] in Hcall; (etransitivity; [exact Hcall|]).
  - apply keeps_try_except;
      [apply keeps_first_attempt
      |intros e; apply keeps_on_json_decode_error].
  - apply keeps_on_json_decode_error.
Qed.

End Steps.

(** ** Traces only grow *)

(** From [s] to [s']: the provider requests, the emitted events and the
    accepted events are extended at their end, nothing is sent, and the
    counters of failures, of generations and of rejected events do not
    decrease. *)
Definition advances (s s' : State) : Prop :=
  requests s `prefix_of` requests s'
  /\ emitted s `prefix_of` emitted s'
  /\ event_log s `prefix_of` event_log s'
  /\ outbox s' = outbox s
  /\ actor_system s' = actor_system s
  /\ _json_failures s <= _json_failures s'
  /\ _generation_count s <= _generation_count s'
  /\ rejected s <= rejected s'.

#[local] Instance advances_preorder : PreOrder advances.
Proof.
  split.
  - intros s. unfold advances. repeat split; try reflexivity; lia.
  - intros s1 s2 s3 (Hr & He & Hl & Ho & Ha & Hj & Hg & Hx)
      (Hr' & He' & Hl' & Ho' & Ha' & Hj' & Hg' & Hx').
    unfold advances. repeat split; try (etransitivity; eassumption);
      try congruence; lia.
Qed.

Lemma advances_generate_response (cfg : Config) (env : Env) txt user include md
    (s : State) :
  advances s (snd (_generate_response cfg env txt user include md s)).
Proof.
  apply (keeps_generate_response cfg env advances user (fun _ => True));
    try (intros; exact I);
    intros; unfold advances, rejected;
    cbn [requests emitted event_log outbox actor_system _json_failures
         _generation_count set_emitted set_event_log set_generation_count
         set_total_cache_hits set_json_failures set_requests
         set_breaker_calls set_circuit_breaker set_mode_success_counts
         set_mode_failure_counts];
    rewrite ?length_app; cbn [length];
    repeat split; try reflexivity; try (apply prefix_app_r; reflexivity);
    lia.
Qed.

Section Handling.

Variable cfg : Config.
Variable env : Env.

(** A [GENERATE_RESPONSE] command that carries [user_id], [chat_id] and
    [text]. *)
Definition complete_command (message : ActorMessage) (uid : string)
    (cid txt : value) : Prop :=
  message_type message = MessageType_value GENERATE_RESPONSE
  /\ user_id (payload message) = Some uid
  /\ chat_id (payload message) = Some cid
  /\ text (payload message) = Some txt.

(** The first of the three mandatory keys that the payload lacks, in the
    order [handle_message] reads them. *)
Definition first_missing_key (p : Payload) : option string :=
  match user_id p, chat_id p, text p with
  | None, _, _ => Some "user_id"
  | Some _, None, _ => Some "chat_id"
  | Some _, Some _, None => Some "text"
  | Some _, Some _, Some _ => None
  end.

Lemma handle_message_missing_key (message : ActorMessage) (key : string)
    (s : State) :
  message_type message = MessageType_value GENERATE_RESPONSE ->
  first_missing_key (payload message) = Some key ->
  handle_message cfg env message s = (Raise (KeyError key), s).
Proof.
  intros Hty Hkey. unfold handle_message.
  rewrite bool_decide_eq_false_2 by (intros Hne; now apply Hne).
  unfold first_missing_key in Hkey. unfold bind, lift, payload_getitem.
  destruct (user_id (payload message)); [|now injection Hkey as <-].
  destruct (chat_id (payload message)); [|now injection Hkey as <-].
  destruct (text (payload message)); [discriminate | now injection Hkey as <-].
Qed.

(** X11. A [GENERATE_RESPONSE] message whose payload lacks [user_id],
    [chat_id] or [text] makes [handle_message] raise [KeyError] for the
    first missing key: the lookup happens before the [try], so the exception
    leaves [handle_message], and nothing has been sent, asked of the
    provider, counted or emitted. *)
Theorem incomplete_command_raises_key_error :
  forall (message : ActorMessage) (key : string) (s : State),
    message_type message = MessageType_value GENERATE_RESPONSE ->
    first_missing_key (payload message) = Some key ->
    handle_message cfg env message s = (Raise (KeyError key), s).
Proof. intros message key s. apply handle_message_missing_key. Qed.

(** X12. For a complete [GENERATE_RESPONSE] command [handle_message]
    never raises and returns [None].  Registered with an actor system it
    sends exactly one message, to [telegram], sent by [generation] and
    echoing the command's [user_id] and [chat_id]: a [BOT_RESPONSE] carrying
    the generated value when [_generate_response] returned one that can be
    sliced, an [ERROR] of type [generation_error] carrying the exception's
    text otherwise.  Unregistered, it sends nothing. *)
Theorem complete_command_is_answered_once :
  forall (message : ActorMessage) (uid : string) (cid txt : value)
         (s : State),
    complete_command message uid cid txt ->
    let incl := default true (include_prompt (payload message)) in
    let md := default "base" (mode (payload message)) in
    let gen := _generate_response cfg env txt uid incl md s in
    let out := handle_message cfg env message s in
    fst out = Ok None
    /\ (actor_system s = false -> outbox (snd out) = outbox s)
    /\ (actor_system s = true ->
        exists reply,
          outbox (snd out) = outbox s ++ [("telegram", reply)]
          /\ sender_id reply = Some "generation"
          /\ user_id (payload reply) = Some uid
          /\ chat_id (payload reply) = Some cid
          /\ match fst gen with
             | Ok v =>
                 match slice_50 v with
                 | Ok _ => reply = bot_response uid cid v
                 | Raise e => reply = error_msg uid cid e
                 end
             | Raise e => reply = error_msg uid cid e
             end).
Proof.
  intros message uid cid txt s (Hty & Hu & Hc & Ht) incl md gen out.
  subst out. rewrite (handle_message_generate cfg env message uid cid txt s
                        Hty Hu Hc Ht).
  cbn zeta. fold incl md gen.
  pose proof (advances_generate_response cfg env txt uid incl md s) as Hadv.
  fold gen in Hadv. destruct Hadv as (_ & _ & _ & Ho & Ha & _).
  destruct gen as [[v|e] s1]; cbn [fst snd] in *.
  - destruct (slice_50 v) as [[]|e]; cbn [fst snd]; unfold send_message;
      rewrite Ha; (split; [reflexivity|]);
      (split; [intros ->; exact Ho|]); intros ->;
      eexists; cbn [snd outbox set_outbox]; rewrite Ho;
      repeat split; reflexivity.
  - unfold send_message. rewrite Ha. split; [reflexivity|].
    split; [intros ->; exact Ho|]. intros ->.
    eexists. cbn [snd outbox set_outbox]. rewrite Ho.
    repeat split; reflexivity.
Qed.

(** X13. Whatever the message, [handle_message] only appends: the
    provider requests, the emitted events, the accepted events and the
    outbox of the state before are prefixes of those after, at most one
    message is sent, and the counters of JSON failures, of generations and
    of rejected events never decrease. *)
Theorem handle_message_only_appends :
  forall (message : ActorMessage) (s : State),
    let s' := snd (handle_message cfg env message s) in
    requests s `prefix_of` requests s'
    /\ emitted s `prefix_of` emitted s'
    /\ event_log s `prefix_of` event_log s'
    /\ outbox s `prefix_of` outbox s'
    /\ (length (outbox s') <= length (outbox s) + 1)%nat
    /\ _json_failures s <= _json_failures s'
    /\ _generation_count s <= _generation_count s'
    /\ rejected s <= rejected s'.
Proof.
  intros message s s'.
  assert (Hsame : s' = s ->
    requests s `prefix_of` requests s'
    /\ emitted s `prefix_of` emitted s'
    /\ event_log s `prefix_of` event_log s'
    /\ outbox s `prefix_of` outbox s'
    /\ (length (outbox s') <= length (outbox s) + 1)%nat
    /\ _json_failures s <= _json_failures s'
    /\ _generation_count s <= _generation_count s'
    /\ rejected s <= rejected s').
  { intros ->. repeat split; try reflexivity; lia. }
  destruct (decide (message_type message = MessageType_value GENERATE_RESPONSE))
    as [Hty|Hne].
  - destruct (first_missing_key (payload message)) as [key|] eqn:Hkey.
    + apply Hsame. subst s'.
      now rewrite (handle_message_missing_key message key s Hty Hkey).
    + unfold first_missing_key in Hkey.
      destruct (user_id (payload message)) as [uid|] eqn:Hu; [|discriminate].
      destruct (chat_id (payload message)) as [cid|] eqn:Hc; [|discriminate].
      destruct (text (payload message)) as [txt|] eqn:Ht; [|discriminate].
      subst s'.
      rewrite (handle_message_generate cfg env message uid cid txt s
                 Hty Hu Hc Ht).
      cbn zeta.
      pose proof (advances_generate_response cfg env txt uid
                    (default true (include_prompt (payload message)))
                    (default "base" (mode (payload message))) s) as Hadv.
      destruct (_generate_response _ _ _ _ _ _ s) as [[v|e] s1];
        cbn [snd] in Hadv;
        destruct Hadv as (Hr & He & Hl & Ho & Ha & Hj & Hg & Hx);
        [destruct (slice_50 v) as [[]|e]|];
        unfold send_message; destruct (actor_system s1); cbn [snd];
        unfold rejected in *;
        cbn [requests emitted event_log outbox _json_failures
             _generation_count set_outbox];
        rewrite ?length_app, ?Ho; cbn [length];
        repeat split; try assumption; try reflexivity;
        try (apply prefix_app_r; reflexivity); lia.
  - apply Hsame. subst s'. unfold handle_message.
    now rewrite bool_decide_eq_true_2.
Qed.

End Handling.

(** A command without [text]. *)
Lemma incomplete_command_raises_key_error_witness :
  handle_message Demo.cfg (Demo.env Demo.text_hi "" None)
    {| sender_id := Some "user_session";
       message_type := MessageType_value GENERATE_RESPONSE;
       payload := {| user_id := Some "u1"; chat_id := Some (VInt 7);
                     text := None; include_prompt := None;
                     mode := None; error := None; error_type := None |} |}
    (initialize true)
  = (Raise (KeyError "text"), initialize true).
Proof.
  apply (incomplete_command_raises_key_error Demo.cfg
           (Demo.env Demo.text_hi "" None)); reflexivity.
Defined.

(** The demo command, answered with the extracted text. *)
Lemma complete_command_is_answered_once_witness :
  complete_command DemoTelemetry.request "u1" (VInt 7) (VStr "hello")
  /\ map snd (outbox (snd (handle_message Demo.cfg
                             (Demo.env Demo.text_hi "" None)
                             DemoTelemetry.request (initialize true))))
     = [bot_response "u1" (VInt 7) (VStr "hi there")].
Proof.
  assert (H : complete_command DemoTelemetry.request "u1" (VInt 7)
                (VStr "hello")) by (repeat split).
  split; [exact H|].
  destruct (complete_command_is_answered_once Demo.cfg
              (Demo.env Demo.text_hi "" None) DemoTelemetry.request "u1"
              (VInt 7) (VStr "hello") (initialize true) H)
    as (_ & _ & Hsent).
  destruct (Hsent eq_refl) as (reply & -> & _ & _ & _ & Hreply).
  cbn [map snd app outbox initialize].
  assert (Hgen : fst (_generate_response Demo.cfg
                        (Demo.env Demo.text_hi "" None) (VStr "hello") "u1"
                        (default true (include_prompt
                                         (payload DemoTelemetry.request)))
                        (default "base" (mode (payload DemoTelemetry.request)))
                        (initialize true))
                 = Ok (VStr "hi there")) by (vm_compute; reflexivity).
  rewrite Hgen in Hreply. cbn [slice_50] in Hreply. now rewrite Hreply.
Defined.

(** ** The events of a request *)

(** The four events a request of [user] may produce, each on its own
    stream and, the cache metric apart, naming the user. *)
Definition event_of_request (user : string) (ev : BaseEvent) : Prop :=
  (event_type ev = "CacheHitMetricEvent" /\ stream_id ev = "metrics")
  \/ (event_type ev = "JSONModeFailureEvent"
      /\ stream_id ev = "user_" +:+ user
      /\ dict_get (data ev) "user_id" = Some (VStr user))
  \/ (event_type ev = "JSONValidationFailedEvent"
      /\ stream_id ev = "validation_" +:+ user
      /\ dict_get (data ev) "user_id" = Some (VStr user))
  \/ (event_type ev = "GenerationParametersUsedEvent"
      /\ stream_id ev = "generation_" +:+ user
      /\ dict_get (data ev) "user_id" = Some (VStr user)).

(** From [s] to [s'], only events of a request of [user] were emitted, and
    the accepted ones are some of them, in the order of their emission. *)
Definition emits_for (user : string) (s s' : State) : Prop :=
  exists new accepted,
    emitted s' = emitted s ++ new
    /\ event_log s' = event_log s ++ accepted
    /\ accepted `sublist_of` new
    /\ Forall (event_of_request user) new.

#[local] Instance emits_for_preorder (user : string) :
  PreOrder (emits_for user).
Proof.
  split.
  - intros s. exists [], []. rewrite !app_nil_r. repeat split; constructor.
  - intros s1 s2 s3 (n1 & a1 & He1 & Hl1 & Hs1 & Hf1)
      (n2 & a2 & He2 & Hl2 & Hs2 & Hf2).
    exists (n1 ++ n2), (a1 ++ a2).
    rewrite He2, He1, Hl2, Hl1, <- !app_assoc.
    repeat split; [now apply sublist_app | now apply Forall_app].
Qed.

(** X14. Every event [_generate_response] hands to the sink for a user is
    a [CacheHitMetricEvent] on the stream [metrics], or one of
    [JSONModeFailureEvent], [JSONValidationFailedEvent] and
    [GenerationParametersUsedEvent] on the stream [user_], [validation_]
    or [generation_] followed by the user id, with that id under [user_id];
    and the events the sink accepted are a subsequence of the emitted ones,
    in emission order. *)
Theorem request_emits_only_its_events :
  forall (cfg : Config) (env : Env) (txt : value) (user : string)
         (include : bool) (md : string) (s : State),
    let s' := snd (_generate_response cfg env txt user include md s) in
    Forall (event_of_request user) (emitted_since s s')
    /\ emitted s `prefix_of` emitted s'
    /\ drop (length (event_log s)) (event_log s')
       `sublist_of` emitted_since s s'.
Proof.
  intros cfg env txt user include md s s'.
  assert (H : emits_for user s s').
  { apply (keeps_generate_response cfg env (emits_for user) user
             (event_of_request user));
      [ intros h m q; left; now split
      | intros err; right; left; now repeat split
      | intros errors d; right; right; left; now repeat split
      | intros m p n; right; right; right; now repeat split
      | intros ev s0 Hev; exists [ev], [];
        cbn [emitted event_log set_emitted]; rewrite app_nil_r;
        repeat split; [apply sublist_nil_l | now constructor]
      | intros ev s0 Hev; exists [ev], [ev];
        cbn [emitted event_log set_emitted set_event_log];
        repeat split; [reflexivity | now constructor]
      | intros; exists [], []; rewrite !app_nil_r;
        repeat split; constructor .. ]. }
  destruct H as (new & accepted & He & Hl & Hsub & Hall).
  rewrite (emitted_since_app s s' new He). rewrite Hl, drop_app_length.
  repeat split; [exact Hall | now exists new | exact Hsub].
Qed.

(** ** What a request costs *)

Section Cost.

Variable cfg : Config.
Variable env : Env.

(** Neither a provider request nor a JSON failure between [s] and [s']. *)
Definition quiet (s s' : State) : Prop :=
  requests s' = requests s /\ _json_failures s' = _json_failures s.

#[local] Instance quiet_preorder : PreOrder quiet.
Proof.
  split.
  - intros s. now split.
  - intros s1 s2 s3 [H1 H2] [H3 H4]. split; congruence.
Qed.

Lemma quiet_first_attempt user md use_json response s :
  quiet s (snd (first_attempt cfg env user md use_json response s)).
Proof.
  apply (keeps_first_attempt cfg env quiet user (fun _ => True));
    try (intros; exact I); intros; now split.
Qed.

Lemma quiet_append_event ev s : quiet s (snd (_append_event env ev s)).
Proof.
  unfold _append_event. destruct (append_event env _ _); now split.
Qed.

(** One [_call_api]: at most one provider request, no JSON failure. *)
Lemma call_api_spends msgs use_json md s :
  let s1 := snd (_call_api cfg env msgs use_json md s) in
  (requests s1 = requests s \/ exists kw, requests s1 = requests s ++ [kw])
  /\ _json_failures s1 = _json_failures s.
Proof.
  unfold _call_api, CircuitBreaker.call.
  set (s0 := set_breaker_calls (S (breaker_calls s)) s).
  destruct (CircuitBreaker.allow _ _) as [cb1|];
    [|cbn [snd]; split; [now left | reflexivity]].
  assert (Hop : let w := snd (api_call cfg env msgs use_json md s0) in
                (requests w = requests s
                 \/ exists kw, requests w = requests s ++ [kw])
                /\ _json_failures w = _json_failures s).
  { unfold api_call, bind, lift.
    destruct (mode_generation_params cfg md) as [mode_params|];
      [|cbn [snd]; split; [now left | reflexivity]].
    destruct (create_completion env _ _) as [chunks|];
      [|cbn [snd]; split; [right; eexists; reflexivity | reflexivity]].
    destruct (fold_left consume_chunk chunks ("", 0, 0)) as [[full hit] miss].
    unfold bind.
    pose proof (log_cache_metrics_frame cfg env hit miss
                  (set_requests
                     (requests s0 ++ [api_kwargs cfg mode_params msgs use_json])
                     s0)) as [(Hj & _) Hreq].
    cbn zeta in Hj, Hreq.
    destruct (_log_cache_metrics cfg env hit miss _) as [[[]|e] s2];
      cbn [snd] in *; (split; [right; eexists; exact Hreq | exact Hj]). }
  destruct (api_call cfg env msgs use_json md s0) as [[a|e] w];
    cbn [snd] in *; exact Hop.
Qed.

(** The [except] clause: for an exception it does not catch nothing
    happens; for a [JSONDecodeError] the failure is counted once and at most
    one request follows, and only with fallback and structured mode on. *)
Lemma handler_spends txt user include md use_json response e s :
  let s' := snd (on_json_decode_error cfg env txt user include md use_json
                   response e s) in
  (s' = s /\ is_JSONDecodeError e = false)
  \/ (is_JSONDecodeError e = true
      /\ _json_failures s' = _json_failures s + 1
      /\ (requests s' = requests s
          \/ (json_fallback_enabled (PROMPT_CONFIG cfg) && use_json = true
              /\ exists kw, requests s' = requests s ++ [kw]))).
Proof.
  unfold on_json_decode_error.
  destruct (is_JSONDecodeError e); [right|left; now split].
  split; [reflexivity|]. unfold bind, modify.
  set (s1 := set_json_failures (_json_failures s + 1) s).
  pose proof (quiet_append_event
                {| stream_id := "user_" +:+ user;
                   event_type := "JSONModeFailureEvent";
                   data := [("user_id", VStr user);
                            ("error", VStr (str_exn e))] |} s1) as [Hr Hj].
  unfold _log_json_failure.
  destruct (_append_event env _ s1) as [[[]|e1] s2]; cbn [snd] in *;
    [|split; [exact Hj | left; exact Hr]].
  destruct (json_fallback_enabled (PROMPT_CONFIG cfg) && use_json).
  - unfold lift.
    destruct (_format_context cfg txt include true md) as [msgs|];
      [|cbn [snd]; split; [exact Hj | left; exact Hr]].
    pose proof (call_api_spends msgs false md s2) as [Hreq Hj2].
    cbn zeta in Hreq, Hj2.
    destruct (_call_api cfg env msgs false md s2) as [[r|e2] s3];
      cbn [snd] in *; unfold ret; cbn [snd];
      (split; [rewrite Hj2, Hj; reflexivity|]);
      (destruct Hreq as [Hreq|[kw Hreq]];
       [left; rewrite Hreq, Hr; reflexivity
       |right; split;
        [reflexivity | exists kw; rewrite Hreq, Hr; reflexivity]]).
  - destruct response; cbn [snd]; (split; [exact Hj | left; exact Hr]).
Qed.

(** X15. One [_generate_response] asks the provider at most twice and
    counts at most one JSON failure; a second request is made only after a
    JSON failure was counted, with structured mode and fallback both on. *)
Theorem request_costs_at_most_two_calls :
  forall (txt : value) (user : string) (include : bool) (md : string)
         (s : State),
    let s' := snd (_generate_response cfg env txt user include md s) in
    (length (requests s') <= length (requests s) + 2)%nat
    /\ _json_failures s <= _json_failures s' <= _json_failures s + 1
    /\ (length (requests s') = (length (requests s) + 2)%nat ->
        _json_failures s' = _json_failures s + 1
        /\ json_fallback_enabled (PROMPT_CONFIG cfg) = true
        /\ use_json_mode (PROMPT_CONFIG cfg) = true).
Proof.
  intros txt user include md s. unfold _generate_response, bind, lift.
  destruct (_format_context cfg txt include false md) as [msgs|];
    [|cbn [snd]; repeat split; lia].
  pose proof (call_api_spends msgs (use_json_mode (PROMPT_CONFIG cfg)) md s)
    as [Hreq1 Hj1].
  cbn zeta in Hreq1, Hj1.
  assert (Hlen1 : (length (requests s)
                   <= length (requests
                        (snd (_call_api cfg env msgs
                                (use_json_mode (PROMPT_CONFIG cfg)) md s)))
                   <= length (requests s) + 1)%nat).
  { destruct Hreq1 as [->|[kw ->]]; rewrite ?length_app; cbn [length]; lia. }
  clear Hreq1.
  destruct (_call_api cfg env msgs _ md s) as [[response|e] s1];
    cbn [snd] in *.
  - unfold try_except.
    pose proof (quiet_first_attempt user md
                  (use_json_mode (PROMPT_CONFIG cfg)) response s1) as [Hr Hj].
    destruct (first_attempt cfg env user md _ response s1) as [[v|e] s2];
      cbn [snd] in *.
    + rewrite Hr, Hj, Hj1. repeat split; lia.
    + pose proof (handler_spends txt user include md
                    (use_json_mode (PROMPT_CONFIG cfg)) (Some response) e s2)
        as Hh.
      cbn zeta in Hh.
      destruct Hh as [[-> _]|(_ & Hj3 & [Hr3|(Hon & kw & Hr3)])].
      * rewrite Hr, Hj, Hj1. repeat split; lia.
      * rewrite Hr3, Hj3, Hr, Hj, Hj1. repeat split; lia.
      * rewrite Hr3, Hj3, Hr, Hj, Hj1, length_app. cbn [length].
        apply andb_true_iff in Hon as [Hfb Huj].
        repeat split; try lia; assumption.
  - pose proof (handler_spends txt user include md
                  (use_json_mode (PROMPT_CONFIG cfg)) None e s1) as Hh.
    cbn zeta in Hh.
    destruct Hh as [[-> _]|(_ & Hj3 & [Hr3|(Hon & kw & Hr3)])].
    + rewrite Hj1. repeat split; lia.
    + rewrite Hr3, Hj3, Hj1. repeat split; lia.
    + rewrite Hr3, Hj3, Hj1, length_app. cbn [length].
      apply andb_true_iff in Hon as [Hfb Huj].
      repeat split; try lia; assumption.
Qed.

End Cost.

(** ** The other paths through a request *)

Section Paths.

Variable cfg : Config.
Variable env : Env.

(** X16. A failure before or at the first provider call is raised as it
    is, without retry: when the base prompt is not configured,
    [_generate_response] raises the [KeyError] of [_format_context] and has
    done nothing; when the first [_call_api] raises anything but a
    [JSONDecodeError] (the breaker refusing, the provider failing), that
    exception is raised and the state is the one the call left, so no
    fallback call is made and no JSON failure is counted. *)
Theorem early_failure_is_raised_without_retry :
  forall (txt : value) (user : string) (include : bool) (md : string)
         (s : State),
    (forall e, _format_context cfg txt include false md = Raise e ->
               _generate_response cfg env txt user include md s
               = (Raise e, s))
    /\ (forall msgs e s1,
          _format_context cfg txt include false md = Ok msgs ->
          _call_api cfg env msgs (use_json_mode (PROMPT_CONFIG cfg)) md s
          = (Raise e, s1) ->
          is_JSONDecodeError e = false ->
          _generate_response cfg env txt user include md s = (Raise e, s1)
          /\ _json_failures s1 = _json_failures s
          /\ (length (requests s1) <= length (requests s) + 1)%nat).
Proof.
  intros txt user include md s. split.
  - intros e Hctx. unfold _generate_response, bind, lift. now rewrite Hctx.
  - intros msgs e s1 Hctx Hcall Hnj.
    pose proof (call_api_spends cfg env msgs
                  (use_json_mode (PROMPT_CONFIG cfg)) md s) as [Hreq Hj].
    cbn zeta in Hreq, Hj. rewrite Hcall in Hreq, Hj. cbn [snd] in Hreq, Hj.
    split; [|split; [exact Hj|]].
    + unfold _generate_response, bind, lift. rewrite Hctx, Hcall.
      unfold on_json_decode_error. now rewrite Hnj.
    + destruct Hreq as [->|[kw ->]]; rewrite ?length_app; cbn [length]; lia.
Qed.

(** X17. With structured mode off, when the provider call returns a text
    and the parameters event is logged without an exception,
    [_generate_response] returns that raw text; [json.loads] and
    [parse_response] play no part, one request was made, without a response
    format and on the messages [_format_context] composed, and the JSON
    failure counter and both per-mode counters are as before. *)
Theorem plain_mode_returns_raw_text :
  forall (txt : value) (user : string) (include : bool) (md : string)
         (s s1 s2 : State) (msgs : list chat_message) (response : string),
    use_json_mode (PROMPT_CONFIG cfg) = false ->
    _format_context cfg txt include false md = Ok msgs ->
    _call_api cfg env msgs false md s = (Ok response, s1) ->
    log_parameters_used cfg env user md
      (Ok (VInt (Z.of_nat (String.length response)))) s1 = (Ok tt, s2) ->
    _generate_response cfg env txt user include md s = (Ok (VStr response), s2)
    /\ (exists kw, requests s2 = requests s ++ [kw]
                   /\ messages kw = msgs /\ response_format kw = None)
    /\ _json_failures s2 = _json_failures s
    /\ _mode_success_counts s2 = _mode_success_counts s
    /\ _mode_failure_counts s2 = _mode_failure_counts s.
Proof.
  intros txt user include md s s1 s2 msgs response Hplain Hctx Hcall Hlog.
  destruct (call_api_returns cfg env _ _ _ _ _ _ Hcall)
    as (p & _ & Hreq & _ & Hj & Hs & Hf & _).
  assert (Hq : quiet s1 s2 /\ _mode_success_counts s2 = _mode_success_counts s1
               /\ _mode_failure_counts s2 = _mode_failure_counts s1).
  { unfold log_parameters_used in Hlog.
    destruct (log_config cfg _); [|injection Hlog as <-; now repeat split].
    unfold bind, lift in Hlog.
    destruct (mode_generation_params cfg md); [|discriminate].
    unfold _append_event in Hlog.
    destruct (append_event env _ _); [discriminate|].
    injection Hlog as <-. now repeat split. }
  destruct Hq as ([Hr2 Hj2] & Hs2 & Hf2).
  split; [|split; [|split; [|split]]]; try congruence.
  - unfold _generate_response, bind, lift. rewrite Hctx, Hplain, Hcall.
    unfold try_except, first_attempt, bind. rewrite Hlog. reflexivity.
  - exists (api_kwargs cfg p msgs false). rewrite Hr2, Hreq. now repeat split.
Qed.

(** The state once the sink has accepted the failure event of a rejected
    text, as [failure_recorded] says, with fallback off: the raw text of the
    first call is what is left to return. *)
Lemma malformed_without_fallback txt user include md s msgs response s1 m :
  use_json_mode (PROMPT_CONFIG cfg) = true ->
  json_fallback_enabled (PROMPT_CONFIG cfg) = false ->
  _format_context cfg txt include false md = Ok msgs ->
  _call_api cfg env msgs true md s = (Ok response, s1) ->
  json_loads env response = Raise (JSONDecodeError m) ->
  append_event env (length (emitted s1)) (json_mode_failure_event user m)
  = None ->
  _generate_response cfg env txt user include md s
  = (Ok (VStr response), failure_recorded user m s1).
Proof.
  intros Hjson Hfb Hctx Hcall Hloads Hsink.
  unfold _generate_response, bind, lift. rewrite Hctx, Hjson, Hcall.
  unfold try_except, first_attempt, bind, lift, _extract_from_json.
  rewrite Hloads.
  unfold on_json_decode_error, bind, modify, lift, _log_json_failure,
    _append_event.
  cbn [is_JSONDecodeError str_exn].
  change (emitted (set_json_failures (_json_failures s1 + 1) s1))
    with (emitted s1).
  fold (json_mode_failure_event user m). rewrite Hsink, Hfb. reflexivity.
Qed.

(** X18. With structured mode on and fallback off, when the first call
    returns a text [json.loads] rejects and the sink accepts the failure
    event, [_generate_response] returns that raw text as it came; the
    failure is counted once, one [JSONModeFailureEvent] carrying the
    decoder's message is emitted, and the provider is not asked again. *)
Theorem malformed_response_without_fallback_returns_raw_text :
  forall (txt : value) (user : string) (include : bool) (md : string)
         (s s1 : State) (msgs : list chat_message) (response m : string),
    use_json_mode (PROMPT_CONFIG cfg) = true ->
    json_fallback_enabled (PROMPT_CONFIG cfg) = false ->
    _format_context cfg txt include false md = Ok msgs ->
    _call_api cfg env msgs true md s = (Ok response, s1) ->
    json_loads env response = Raise (JSONDecodeError m) ->
    append_event env (length (emitted s1)) (json_mode_failure_event user m)
    = None ->
    let out := _generate_response cfg env txt user include md s in
    fst out = Ok (VStr response)
    /\ _json_failures (snd out) = _json_failures s + 1
    /\ (exists kw, requests (snd out) = requests s ++ [kw]
                   /\ response_format kw = Some "json_object")
    /\ count_type "JSONModeFailureEvent" (emitted_since s (snd out)) = 1%nat
    /\ last (emitted (snd out)) = Some (json_mode_failure_event user m).
Proof.
  intros txt user include md s s1 msgs response m
    Hjson Hfb Hctx Hcall Hloads Hsink out.
  subst out.
  rewrite (malformed_without_fallback txt user include md s msgs response s1 m
             Hjson Hfb Hctx Hcall Hloads Hsink).
  destruct (call_api_returns cfg env _ _ _ _ _ _ Hcall)
    as (p & _ & Hreq & Hem & Hj & _).
  apply count_cache_metric_only in Hem as (l & Hl & Hc & _).
  cbn [fst snd failure_recorded requests emitted _json_failures
       set_event_log set_emitted set_json_failures].
  split; [reflexivity|]. split; [now rewrite Hj|]. split.
  { exists (api_kwargs cfg p msgs true). now split. }
  split.
  - rewrite (emitted_since_app s _ (l ++ [json_mode_failure_event user m])).
    + rewrite count_type_app, Hc. reflexivity.
    + unfold failure_recorded.
      cbn [emitted set_event_log set_emitted set_json_failures].
      now rewrite Hl, <- app_assoc.
  - apply last_snoc.
Qed.



End Paths.

Module DemoPaths.

(** The demo configuration with structured mode switched off. *)
Definition cfg_plain : Config :=
  {| PROMPTS := PROMPTS Demo.cfg;
     PROMPT_CONFIG :=
       {| use_json_mode := false; json_fallback_enabled := true |};
     JSON_SCHEMA_INSTRUCTIONS := JSON_SCHEMA_INSTRUCTIONS Demo.cfg;
     MODE_GENERATION_PARAMS := MODE_GENERATION_PARAMS Demo.cfg;
     GENERATION_PARAMS_LOG_CONFIG := GENERATION_PARAMS_LOG_CONFIG Demo.cfg;
     JSON_VALIDATION_CONFIG := JSON_VALIDATION_CONFIG Demo.cfg;
     JSON_VALIDATION_ENABLED := JSON_VALIDATION_ENABLED Demo.cfg;
     JSON_VALIDATION_LOG_FAILURES := JSON_VALIDATION_LOG_FAILURES Demo.cfg;
     CACHE_HIT_LOG_INTERVAL := CACHE_HIT_LOG_INTERVAL Demo.cfg;
     DEEPSEEK_MODEL := DEEPSEEK_MODEL Demo.cfg |}.

(** The provider answers [plain text] to every call. *)
Definition env_plain : Env := Demo.env "plain text" "plain text" None.

Definition msgs_plain : list chat_message :=
  [{| role := "system"; content := VStr "You are Chimera." |};
   {| role := "user"; content := VStr "hello" |}].

Definition s1_plain : State :=
  snd (_call_api cfg_plain env_plain msgs_plain false "base"
         (initialize true)).

Definition s2_plain : State :=
  snd (log_parameters_used cfg_plain env_plain "u1" "base"
         (Ok (VInt 10)) s1_plain).

Definition msgs_json : list chat_message :=
  [{| role := "system"; content := VStr "You are Chimera. Answer in JSON." |};
   {| role := "user"; content := VStr "hello" |}].

Definition s1_malformed : State :=
  snd (_call_api DemoMissingField.cfg_no_fallback DemoFallback.env msgs_json
         true "base" (initialize true)).

Definition env_hi : Env := Demo.env Demo.text_hi "" None.



End DemoPaths.

(** Structured mode off: the raw text comes back. *)
Lemma plain_mode_returns_raw_text_witness :
  use_json_mode (PROMPT_CONFIG DemoPaths.cfg_plain) = false
  /\ _generate_response DemoPaths.cfg_plain DemoPaths.env_plain (VStr "hello")
       "u1" true "base" (initialize true)
     = (Ok (VStr "plain text"), DemoPaths.s2_plain).
Proof.
  split; [reflexivity|].
  apply (plain_mode_returns_raw_text DemoPaths.cfg_plain DemoPaths.env_plain
           (VStr "hello") "u1" true "base" (initialize true)
           DemoPaths.s1_plain DemoPaths.s2_plain DemoPaths.msgs_plain
           "plain text").
  - reflexivity.
  - vm_compute; reflexivity.
  - vm_compute; reflexivity.
  - vm_compute; reflexivity.
Defined.

(** Fallback off and [not json] from the provider: the raw text comes
    back and the failure is counted. *)
Lemma malformed_response_without_fallback_returns_raw_text_witness :
  json_fallback_enabled (PROMPT_CONFIG DemoMissingField.cfg_no_fallback)
    = false
  /\ fst (_generate_response DemoMissingField.cfg_no_fallback
            DemoFallback.env (VStr "hello") "u1" true "base"
            (initialize true))
     = Ok (VStr "not json")
  /\ _json_failures
       (snd (_generate_response DemoMissingField.cfg_no_fallback
               DemoFallback.env (VStr "hello") "u1" true "base"
               (initialize true)))
     = _json_failures (initialize true) + 1.
Proof.
  split; [reflexivity|].
  destruct (malformed_response_without_fallback_returns_raw_text
              DemoMissingField.cfg_no_fallback DemoFallback.env
              (VStr "hello") "u1" true "base" (initialize true)
              DemoPaths.s1_malformed DemoPaths.msgs_json "not json"
              "Expecting value: line 1 column 1 (char 0)")
    as (Hres & Hcount & _).
  - reflexivity.
  - reflexivity.
  - vm_compute; reflexivity.
  - vm_compute; reflexivity.
  - vm_compute; reflexivity.
  - vm_compute; reflexivity.
  - split; [exact Hres | exact Hcount].
Defined.


(** The answer [{"response": null}]: the verdict is counted, then [len]
    raises while the parameters event is built, and the request fails with
    that [TypeError]. *)
Example null_response_is_counted_then_raises :
  let env_null :=
    {| json_loads := fun _ => Ok (VDict [("response", VNone)]);
       str_value := str_value DemoPaths.env_hi;
       parse_response := parse_response DemoPaths.env_hi;
       create_completion := create_completion DemoPaths.env_hi;
       append_event := append_event DemoPaths.env_hi;
       monotonic := monotonic DemoPaths.env_hi |} in
  let out := _generate_response Demo.cfg env_null (VStr "hello") "u1" true
               "base" (initialize true) in
  fst out = Raise (TypeError "object has no len()")
  /\ _mode_success_counts (snd out) !! "base" = Some 1
  /\ length (requests (snd out)) = 1%nat.
Proof. vm_compute. repeat split; reflexivity. Qed.

(** ** Two more invariants *)

Section MoreInvariants.

Variable cfg : Config.
Variable env : Env.

(** X20. The per-mode counters keep the four keys [__init__] gave them:
    they hold on a fresh actor, and no message, whatever its type, payload
    or mode, adds or removes a key, so a mode that has no counter never
    gets one. *)
Theorem counters_keep_their_keys :
  forall (registered : bool),
    counters_keyed (initialize registered)
    /\ forall (message : ActorMessage) (s : State),
         counters_keyed s ->
         counters_keyed (snd (handle_message cfg env message s)).
Proof.
  intros registered. split; [apply initialize_counters_keyed|].
  intros message s Hs.
  destruct (decide (message_type message = MessageType_value GENERATE_RESPONSE))
    as [Hty|Hne].
  - destruct (first_missing_key (payload message)) as [key|] eqn:Hkey.
    + now rewrite (handle_message_missing_key cfg env message key s
                     Hty Hkey).
    + unfold first_missing_key in Hkey.
      destruct (user_id (payload message)) as [uid|] eqn:Hu; [|discriminate].
      destruct (chat_id (payload message)) as [cid|] eqn:Hc; [|discriminate].
      destruct (text (payload message)) as [txt|] eqn:Ht; [|discriminate].
      rewrite (handle_message_generate cfg env message uid cid txt s
                 Hty Hu Hc Ht).
      cbn zeta.
      pose proof (generate_response_keeps_keys cfg env txt uid
                    (default true (include_prompt (payload message)))
                    (default "base" (mode (payload message))) s Hs) as Hgen.
      destruct (_generate_response _ _ _ _ _ _ s) as [[v|e] s1];
        cbn [snd] in Hgen;
        [destruct (slice_50 v) as [[]|e]|];
        unfold send_message; destruct (actor_system s1); exact Hgen.
  - unfold handle_message. now rewrite bool_decide_eq_true_2.
Qed.

Lemma contains_inside (needle before after : string) :
  contains needle (before +:+ needle +:+ after) = true.
Proof.
  induction before as [|c before IH].
  - change ("" +:+ needle +:+ after) with (needle +:+ after).
    destruct (needle +:+ after) eqn:Heq; cbn [contains];
      rewrite <- Heq, prefix_app; reflexivity.
  - change (String c before +:+ needle +:+ after)
      with (String c (before +:+ needle +:+ after)).
    cbn [contains]. rewrite IH. apply orb_true_r.
Qed.

(** X21. A modifier that has [TODO] anywhere inside it, at its start, in
    its middle or at its end, is treated as a placeholder: the prompt
    composed for that mode and phase is the base prompt. *)
Theorem modifier_with_todo_anywhere_is_ignored :
  forall (base_prompt md before after : string) (use_json : bool)
         (mode_prompts : gmap string string),
    PROMPTS cfg !! md = Some mode_prompts ->
    mode_prompts !! prompt_key use_json
    = Some (before +:+ "TODO" +:+ after) ->
    _build_mode_prompt cfg base_prompt md use_json = base_prompt.
Proof.
  intros base_prompt md before after use_json mode_prompts Hmode Hkey.
  apply build_mode_prompt_placeholder
    with mode_prompts (before +:+ "TODO" +:+ after);
    [exact Hmode | exact Hkey | apply contains_inside].
Qed.

End MoreInvariants.

(** The placeholder of the demo mode [talk] reads [TODO: talk modifier]. *)
Lemma modifier_with_todo_anywhere_is_ignored_witness :
  _build_mode_prompt Demo.cfg "You are Chimera. Answer in JSON." "talk" true
  = "You are Chimera. Answer in JSON.".
Proof.
  apply (modifier_with_todo_anywhere_is_ignored Demo.cfg
           "You are Chimera. Answer in JSON." "talk" "" ": talk modifier" true
           (<["json" := "TODO: talk modifier"]>
              (<["normal" := "Keep it casual."]> ∅)));
    vm_compute; reflexivity.
Defined.
